(** * exchain: cross-VM bridge, versioned store filters, proposal status

    A shallow embedding of three Go files of the repository:

    - the governance [ProposalStatus] conversions (package [types]),
    - the store filters of [x/wasm/module_adapter.go],
    - the bridge keeper of [x/vmbridge/keeper/evm.go]
      ([SendToWasmEventHandler.Handle], [Keeper.SendToEvm], [Keeper.CallEvm]).

    Go integers are modelled as [Z] with the wrap-around of their width
    written out where the code does arithmetic, byte slices as [list N],
    strings as [string], nil-able pointers as [option]. *)

From Stdlib Require Import ZArith String Ascii List Bool Lia DecimalString.
From stdpp Require Import gmap strings list.

Local Open Scope string_scope.
Local Open Scope Z_scope.

(* ===================================================================== *)
(** ** Governance: [ProposalStatus] and its string form *)
(* ===================================================================== *)

Module Gov.

(** [type ProposalStatus byte] *)
Definition ProposalStatus := Z.

Definition StatusNil           : ProposalStatus := 0x00.
Definition StatusDepositPeriod : ProposalStatus := 0x01.
Definition StatusVotingPeriod  : ProposalStatus := 0x02.
Definition StatusPassed        : ProposalStatus := 0x03.
Definition StatusRejected      : ProposalStatus := 0x04.
Definition StatusFailed        : ProposalStatus := 0x05.

(** [fmt.Errorf("'%s' is not a valid proposal status", str)] *)
Definition invalid_status_error (str : string) : string :=
  "'" ++ str ++ "' is not a valid proposal status".

(** [func ProposalStatusFromString(str string) (ProposalStatus, error)];
    the [switch] compares [str] with the cases in their order. *)
Definition ProposalStatusFromString (str : string)
  : ProposalStatus * option string :=
  if String.eqb str "DepositPeriod" then (StatusDepositPeriod, None)
  else if String.eqb str "VotingPeriod" then (StatusVotingPeriod, None)
  else if String.eqb str "Passed" then (StatusPassed, None)
  else if String.eqb str "Rejected" then (StatusRejected, None)
  else if String.eqb str "Failed" then (StatusFailed, None)
  else if String.eqb str "" then (StatusNil, None)
  else (0xff, Some (invalid_status_error str)).

(** [func ValidProposalStatus(status ProposalStatus) bool] *)
Definition ValidProposalStatus (status : ProposalStatus) : bool :=
  if (status =? StatusDepositPeriod) ||
     (status =? StatusVotingPeriod) ||
     (status =? StatusPassed) ||
     (status =? StatusRejected) ||
     (status =? StatusFailed)
  then true
  else false.

(** [func (status ProposalStatus) String() string] *)
Definition ProposalStatus_String (status : ProposalStatus) : string :=
  if status =? StatusDepositPeriod then "DepositPeriod"
  else if status =? StatusVotingPeriod then "VotingPeriod"
  else if status =? StatusPassed then "Passed"
  else if status =? StatusRejected then "Rejected"
  else if status =? StatusFailed then "Failed"
  else "".

(** The five names the [switch] of [ProposalStatusFromString] accepts
    besides the empty string. *)
Definition status_names : list string :=
  ["DepositPeriod"; "VotingPeriod"; "Passed"; "Rejected"; "Failed"].

(** *** Wire forms of [ProposalStatus] *)

(** A call that returns, or panics with the value given to [panic]. *)
Inductive Run (A : Type) :=
| Ran (a : A)
| Panic (msg : string).
Arguments Ran {A} a.
Arguments Panic {A} msg.

(** [func (status ProposalStatus) Marshal() ([]byte, error)] *)
Definition Marshal (status : ProposalStatus) : list Z * option string :=
  ([status], None).

(** [func (status *ProposalStatus) Unmarshal(data []byte) error]: the
    receiver after the call and the error; [data[0]] panics on an empty
    slice. *)
Definition Unmarshal (status : ProposalStatus) (data : list Z)
  : Run (ProposalStatus * option string) :=
  match data with
  | [] => Panic "index out of range [0] with length 0"
  | b :: _ => Ran (b, None)
  end.

(** [func (status ProposalStatus) MarshalYAML() (interface{}, error)] *)
Definition MarshalYAML (status : ProposalStatus) : string * option string :=
  if status =? StatusDepositPeriod then ("DepositPeriod", None)
  else if status =? StatusVotingPeriod then ("VotingPeriod", None)
  else if status =? StatusPassed then ("Passed", None)
  else if status =? StatusRejected then ("Rejected", None)
  else if status =? StatusFailed then ("Failed", None)
  else ("", None).

(** [encoding/json] on a Go string: [json.Marshal(s)] and
    [json.Unmarshal(data, &s)]. *)
Class JsonString := {
  json_Marshal : string -> list Z * option string;
  json_Unmarshal : list Z -> string + string
}.

Section Json.
Context {json : JsonString}.

(** [func (status ProposalStatus) MarshalJSON() ([]byte, error)] *)
Definition MarshalJSON (status : ProposalStatus) : list Z * option string :=
  json_Marshal (ProposalStatus_String status).

(** [func (status *ProposalStatus) UnmarshalJSON(data []byte) error]: the
    receiver after the call and the error. *)
Definition UnmarshalJSON (status : ProposalStatus) (data : list Z)
  : ProposalStatus * option string :=
  match json_Unmarshal data with
  | inr err => (status, Some err)
  | inl s =>
      match ProposalStatusFromString s with
      | (_, Some err) => (status, Some err)
      | (bz2, None) => (bz2, None)
      end
  end.

End Json.

(** A part of [encoding/json] on strings, enough to run the wire forms
    on the status names: [null] leaves the Go string at its zero value,
    the empty string; a text of plain characters between two double
    quotes is that text; white space around the value is skipped.
    Escape sequences are not decoded here: a text with a backslash is
    refused, where the library would decode it, and the error texts are
    not the library's. *)
Definition quote : Z := 34.
Definition bytes_of (s : string) : list Z :=
  map (fun c => Z.of_N (N_of_ascii c)) (list_ascii_of_string s).
Definition text_of (bs : list Z) : string :=
  string_of_list_ascii (map (fun b => ascii_of_N (Z.to_N b)) bs).
Definition is_json_space (b : Z) : bool :=
  (b =? 32) || (b =? 9) || (b =? 10) || (b =? 13).
Fixpoint drop_space (bs : list Z) : list Z :=
  match bs with
  | b :: rest => if is_json_space b then drop_space rest else bs
  | [] => []
  end.
Definition trim_space (bs : list Z) : list Z :=
  rev (drop_space (rev (drop_space bs))).
Definition plain_char (b : Z) : bool :=
  (32 <=? b) && negb (b =? quote) && negb (b =? 92).
Definition json_null : list Z := [110; 117; 108; 108].
Definition plain_unquote (data : list Z) : string + string :=
  let value := trim_space data in
  if bool_decide (value = json_null) then inl ""
  else
    match value with
    | q :: rest =>
        let text := take (length rest - 1) rest in
        if (q =? quote)
           && match last rest with
              | Some q' => q' =? quote
              | None => false
              end
           && forallb plain_char text
        then inl (text_of text)
        else inr "invalid JSON string"
    | [] => inr "unexpected end of JSON input"
    end.

(** *** Proposal contents and the registry of proposal types *)

Definition ProposalTypeText : string := "Text".
Definition ProposalTypeSoftwareUpgrade : string := "SoftwareUpgrade".

(** The implementations of the interface [Content]: the two of this file,
    and any other, given by what its methods return. *)
Inductive Content :=
| TextProposal (Title Description : string)
| SoftwareUpgradeProposal (Title Description : string)
| OtherContent (title description proposalType : string).

Definition GetTitle (c : Content) : string :=
  match c with
  | TextProposal t _ | SoftwareUpgradeProposal t _ | OtherContent t _ _ => t
  end.
Definition GetDescription (c : Content) : string :=
  match c with
  | TextProposal _ d | SoftwareUpgradeProposal _ d | OtherContent _ d _ => d
  end.
Definition ProposalType (c : Content) : string :=
  match c with
  | TextProposal _ _ => ProposalTypeText
  | SoftwareUpgradeProposal _ _ => ProposalTypeSoftwareUpgrade
  | OtherContent _ _ ty => ty
  end.

(** [func NewTextProposal(title, description string) Content] *)
Definition NewTextProposal (title description : string) : Content :=
  TextProposal title description.
(** [func NewSoftwareUpgradeProposal(title, description string) Content] *)
Definition NewSoftwareUpgradeProposal (title description : string) : Content :=
  SoftwareUpgradeProposal title description.

(** [var validProposalTypes = map[string]struct{}{...}]: a set of names. *)
Definition initialProposalTypes : gset string :=
  {[ ProposalTypeText; ProposalTypeSoftwareUpgrade ]}.

(** [func RegisterProposalType(ty string)]: the registry after the call. *)
Definition RegisterProposalType (ty : string) (validProposalTypes : gset string)
  : Run (gset string) :=
  if decide (ty ∈ validProposalTypes)
  then Panic ("already registered proposal type: " ++ ty)%string
  else Ran ({[ ty ]} ∪ validProposalTypes).

(** [func IsValidProposalType(ty string) bool] *)
Definition IsValidProposalType (ty : string) (validProposalTypes : gset string)
  : bool :=
  bool_decide (ty ∈ validProposalTypes).

(** [func ContentFromProposalType(title, desc, ty string) Content]; [None]
    is the nil interface value. *)
Definition ContentFromProposalType (title desc ty : string) : option Content :=
  if String.eqb ty ProposalTypeText then Some (NewTextProposal title desc)
  else if String.eqb ty ProposalTypeSoftwareUpgrade
       then Some (NewSoftwareUpgradeProposal title desc)
  else None.

(** One call of [RegisterProposalType] after the other; a panic ends the
    run. *)
Fixpoint RegisterAll (tys : list string) (validProposalTypes : gset string)
  : Run (gset string) :=
  match tys with
  | [] => Ran validProposalTypes
  | ty :: rest =>
      match RegisterProposalType ty validProposalTypes with
      | Panic msg => Panic msg
      | Ran reg => RegisterAll rest reg
      end
  end.

(** [sdk.ErrUnknownRequest(errMsg)] *)
Inductive SdkError := ErrUnknownRequest (errMsg : string).

(** [func ProposalHandler(_ sdk.Context, p *Proposal) sdk.Error], on the
    embedded [Content] of [p]; calling [ProposalType] on a nil interface
    value panics. *)
Definition ProposalHandler (content : option Content) : Run (option SdkError) :=
  match content with
  | None => Panic "invalid memory address or nil pointer dereference"
  | Some c =>
      if String.eqb (ProposalType c) ProposalTypeText
         || String.eqb (ProposalType c) ProposalTypeSoftwareUpgrade
      then Ran None
      else Ran (Some (ErrUnknownRequest
                        ("unrecognized gov proposal type: " ++ ProposalType c)%string))
  end.

(** *** Tally results *)

(** [sdk.Dec] and the two of its functions the file uses. *)
Class Decimal := {
  Dec : Type;
  ZeroDec : Dec;          (* sdk.ZeroDec() *)
  NilDec : Dec;           (* the zero value sdk.Dec{} *)
  Dec_Equal : Dec -> Dec -> bool
}.

Section Tally.
Context {decimal : Decimal}.

Record TallyResult := mkTallyResult {
  TotalPower : Dec;
  TotalVotedPower : Dec;
  Yes : Dec;
  Abstain : Dec;
  No : Dec;
  NoWithVeto : Dec
}.

(** [func NewTallyResult(yes, abstain, no, noWithVeto sdk.Dec) TallyResult];
    the fields the literal leaves out hold the zero value. *)
Definition NewTallyResult (yes abstain no noWithVeto : Dec) : TallyResult :=
  {| TotalPower := NilDec; TotalVotedPower := NilDec;
     Yes := yes; Abstain := abstain; No := no; NoWithVeto := noWithVeto |}.

(** [results[k]] on a Go map: the zero value for a missing key. *)
Definition map_index (results : gmap Z Dec) (k : Z) : Dec :=
  match results !! k with
  | Some d => d
  | None => NilDec
  end.

(** [func NewTallyResultFromMap(results map[VoteOption]sdk.Dec) TallyResult];
    the four [VoteOption] constants are declared with the votes. *)
Definition NewTallyResultFromMap (OptionYes OptionAbstain OptionNo OptionNoWithVeto : Z)
           (results : gmap Z Dec) : TallyResult :=
  {| TotalPower := NilDec; TotalVotedPower := NilDec;
     Yes := map_index results OptionYes;
     Abstain := map_index results OptionAbstain;
     No := map_index results OptionNo;
     NoWithVeto := map_index results OptionNoWithVeto |}.

(** [func EmptyTallyResult(totalVoting sdk.Dec) TallyResult] *)
Definition EmptyTallyResult (totalVoting : Dec) : TallyResult :=
  {| TotalPower := totalVoting; TotalVotedPower := ZeroDec;
     Yes := ZeroDec; Abstain := ZeroDec; No := ZeroDec; NoWithVeto := ZeroDec |}.

(** [func (tr TallyResult) Equals(comp TallyResult) bool] *)
Definition Equals (tr comp : TallyResult) : bool :=
  Dec_Equal (Yes tr) (Yes comp) &&
  Dec_Equal (Abstain tr) (Abstain comp) &&
  Dec_Equal (No tr) (No comp) &&
  Dec_Equal (NoWithVeto tr) (NoWithVeto comp).

End Tally.

(** Decimals as integers, compared by value. *)
#[export] Instance intDecimal : Decimal := {|
  Dec := Z; ZeroDec := 0; NilDec := 0; Dec_Equal := Z.eqb
|}.

#[export] Instance plainJson : JsonString := {|
  json_Marshal := fun s => (quote :: bytes_of s ++ [quote], None)%list;
  json_Unmarshal := plain_unquote
|}.

End Gov.

(* ===================================================================== *)
(** ** Milestones: the Earth activation height *)
(* ===================================================================== *)

Module Milestone.
Section Earth.

(** The process-wide [milestoneEarthHeight] of package [tmtypes]: the
    ActivationHeight of the spec, fixed when the node starts. *)
Variable milestoneEarthHeight : Z.

(** [func GetEarthHeight() int64] *)
Definition GetEarthHeight : Z := milestoneEarthHeight.

(** Modelled from the spec: [tmtypes.HigherThanEarth] is called by the
    files embedded here but declared in [libs/tendermint/types], which is
    not among them.  The spec describes the gate as "Below it: every
    entry point short-circuits ... At or above it: fully active" (4.5),
    the activation height as "the block height at or above which a
    module's behavior becomes live" (glossary), and has the handler
    succeed in the scenario "height=100, ActivationHeight=100" (8).  One
    sentence of the spec (3) says "strictly greater" instead; it differs
    from this definition at the activation height itself and nowhere
    else. *)
Definition HigherThanEarth (h : Z) : bool := milestoneEarthHeight <=? h.

End Earth.
End Milestone.

(* ===================================================================== *)
(** ** [x/wasm/module_adapter.go]: store filters *)
(* ===================================================================== *)

Module Wasm.
Import Milestone.

(** The part of a [store.CommitKVStore] the filters touch: the version
    marker written by [SetUpgradeVersion], next to the store's data. *)
Record CommitKVStore := mkCommitKVStore {
  upgradeVersion : Z;
  kvData : list (list N * list N)
}.

(** [s.SetUpgradeVersion(h)] *)
Definition SetUpgradeVersion (h : Z) (s : CommitKVStore) : CommitKVStore :=
  {| upgradeVersion := h; kvData := kvData s |}.

(** [type StoreFilter func(module string, h int64, s CommitKVStore) bool].
    The store argument is an interface value and may be [nil]; a filter
    may write to it, so the store comes back next to the answer.  The
    answer [true] excludes the module's store, [false] includes it. *)
Definition StoreFilter : Type :=
  string -> Z -> option CommitKVStore -> bool * option CommitKVStore.

(** [type VersionFilter func(h int64) func(cb func(name string, version int64))]:
    an enumerator runs a callback on every entry it reports.  The callback
    is a Go closure; its captured state is threaded explicitly. *)
Definition VersionEnumerator : Type :=
  forall S : Type, (string -> Z -> S -> S) -> S -> S.
Definition VersionFilter : Type := Z -> VersionEnumerator.

(** The entries an enumerator reports, in order. *)
Definition reported (e : VersionEnumerator) : list (string * Z) :=
  e (list (string * Z)) (fun name version acc => acc ++ [(name, version)])%list [].

Section Filters.

(** [types.ModuleName], declared in [x/wasm/types]. *)
Variable ModuleName : string.
Variable milestoneEarthHeight : Z.

Definition defaultDenyFilter : StoreFilter :=
  fun module h s => (String.eqb module ModuleName, s).

Definition defaultCommitFilter : StoreFilter :=
  fun module h s =>
    if negb (String.eqb module ModuleName) then (false, s)
    else if h =? GetEarthHeight milestoneEarthHeight then
      (false, match s with
              | Some st => Some (SetUpgradeVersion h st)
              | None => None
              end)
    else if HigherThanEarth milestoneEarthHeight h then (false, s)
    else (true, s).

Definition defaultPruneFilter : StoreFilter :=
  fun module h s =>
    if negb (String.eqb module ModuleName) then (false, s)
    else if HigherThanEarth milestoneEarthHeight h then (false, s)
    else (true, s).

Definition defaultVersionFilter : VersionFilter :=
  fun h =>
    if h <? 0 then (fun S cb st => st)
    else (fun S cb st => cb ModuleName (GetEarthHeight milestoneEarthHeight) st).

(** [func (am AppModule) UpgradeHeight() int64] *)
Definition UpgradeHeight : Z := GetEarthHeight milestoneEarthHeight.

(** [func (am AppModule) CommitFilter() *store.StoreFilter] *)
Definition CommitFilter : StoreFilter :=
  if UpgradeHeight =? 0 then defaultDenyFilter else defaultCommitFilter.

(** [func (am AppModule) PruneFilter() *store.StoreFilter] *)
Definition PruneFilter : StoreFilter :=
  if UpgradeHeight =? 0 then defaultDenyFilter else defaultPruneFilter.

(** [func (am AppModule) VersionFilter() *store.VersionFilter] *)
Definition AppVersionFilter : VersionFilter := defaultVersionFilter.

End Filters.

(** A store that has not been stamped. *)
Definition store0 : CommitKVStore :=
  {| upgradeVersion := 0; kvData := [([1%N], [2%N])] |}.

(** *** Configuration: [ReadWasmConfig], [Init], [WasmConfig], [WasmDir] *)

(** A value that [viper.Get] hands out as [interface{}]; an unset key
    gives [nil]. *)
Inductive ConfigValue :=
| CvString (s : string)
| CvInt (i : Z)
| CvBool (b : bool).

Definition Viper : Type := string -> option ConfigValue.

(** [types.WasmConfig], with the fields [ReadWasmConfig] assigns. *)
Record types_WasmConfig := mkWasmConfig {
  SimulationGasLimit : option Z;      (* pointer to uint64 *)
  SmartQueryGasLimit : Z;             (* uint64 *)
  MemoryCacheSize : Z;                (* uint32 *)
  ContractDebugMode : bool
}.

Definition set_MemoryCacheSize (v : Z) (cfg : types_WasmConfig) : types_WasmConfig :=
  {| SimulationGasLimit := SimulationGasLimit cfg;
     SmartQueryGasLimit := SmartQueryGasLimit cfg;
     MemoryCacheSize := v;
     ContractDebugMode := ContractDebugMode cfg |}.
Definition set_SmartQueryGasLimit (v : Z) (cfg : types_WasmConfig) : types_WasmConfig :=
  {| SimulationGasLimit := SimulationGasLimit cfg;
     SmartQueryGasLimit := v;
     MemoryCacheSize := MemoryCacheSize cfg;
     ContractDebugMode := ContractDebugMode cfg |}.
Definition set_SimulationGasLimit (v : option Z) (cfg : types_WasmConfig)
  : types_WasmConfig :=
  {| SimulationGasLimit := v;
     SmartQueryGasLimit := SmartQueryGasLimit cfg;
     MemoryCacheSize := MemoryCacheSize cfg;
     ContractDebugMode := ContractDebugMode cfg |}.
Definition set_ContractDebugMode (v : bool) (cfg : types_WasmConfig) : types_WasmConfig :=
  {| SimulationGasLimit := SimulationGasLimit cfg;
     SmartQueryGasLimit := SmartQueryGasLimit cfg;
     MemoryCacheSize := MemoryCacheSize cfg;
     ContractDebugMode := v |}.

(** The flag names, the default configuration and the library functions
    the file calls: [cast.ToUint32E], [cast.ToUint64E], [cast.ToBoolE]
    (value and error), [viper.GetString], [filepath.Join]. *)
Class ConfigEnv := {
  flagWasmMemoryCacheSize : string;
  flagWasmQueryGasLimit : string;
  flagWasmSimulationGasLimit : string;
  FlagTrace : string;
  HomeFlag : string;
  DefaultWasmConfig : types_WasmConfig;
  ToUint32E : ConfigValue -> Z * option string;
  ToUint64E : ConfigValue -> Z * option string;
  ToBoolE : ConfigValue -> bool * option string;
  viper_GetString : Viper -> string -> string;
  filepath_Join : string -> string -> string
}.

Section Config.
Context {env : ConfigEnv}.

(** [func ReadWasmConfig() (types.WasmConfig, error)], on the settings of
    viper.  The casts of the first, second and fourth flag are assigned to
    the field before the error is looked at. *)
Definition ReadWasmConfig (viper : Viper) : types_WasmConfig * option string :=
  let cfg := DefaultWasmConfig in
  match
    match viper flagWasmMemoryCacheSize with
    | Some v => let '(x, err) := ToUint32E v in (set_MemoryCacheSize x cfg, err)
    | None => (cfg, None)
    end
  with
  | (cfg, Some err) => (cfg, Some err)
  | (cfg, None) =>
  match
    match viper flagWasmQueryGasLimit with
    | Some v => let '(x, err) := ToUint64E v in (set_SmartQueryGasLimit x cfg, err)
    | None => (cfg, None)
    end
  with
  | (cfg, Some err) => (cfg, Some err)
  | (cfg, None) =>
  match
    match viper flagWasmSimulationGasLimit with
    | Some (CvString raw) =>
        if negb (String.eqb raw "") then
          (* non empty string set *)
          let '(limit, err) := ToUint64E (CvString raw) in
          match err with
          | Some e => (cfg, Some e)
          | None => (set_SimulationGasLimit (Some limit) cfg, None)
          end
        else (cfg, None)
    | _ => (cfg, None)
    end
  with
  | (cfg, Some err) => (cfg, Some err)
  | (cfg, None) =>
  (* attach contract debugging to global "trace" flag *)
  match
    match viper FlagTrace with
    | Some v => let '(x, err) := ToBoolE v in (set_ContractDebugMode x cfg, err)
    | None => (cfg, None)
    end
  with
  | (cfg, Some err) => (cfg, Some err)
  | (cfg, None) => (cfg, None)
  end end end end.

(** The package variables [once], [gWasmConfig] and [gWasmDir]. *)
Record Globals := mkGlobals {
  once_done : bool;
  gWasmConfig : types_WasmConfig;
  gWasmDir : string
}.

(** The variables when the program starts: zero values. *)
Definition initialGlobals : Globals :=
  {| once_done := false;
     gWasmConfig := {| SimulationGasLimit := None; SmartQueryGasLimit := 0;
                       MemoryCacheSize := 0; ContractDebugMode := false |};
     gWasmDir := "" |}.

(** [func Init()]: the value it panics with, if it does, and the
    variables after. *)
Definition Init (viper : Viper) (g : Globals) : option string * Globals :=
  match ReadWasmConfig viper with
  | (_, Some err) => (Some ("error while reading wasm config: " ++ err)%string, g)
  | (wasmConfig, None) =>
      (None,
       {| once_done := once_done g;
          gWasmConfig := wasmConfig;
          gWasmDir := filepath_Join (viper_GetString viper HomeFlag) "wasm" |})
  end.

(** [once.Do(f)]: [f] runs if no call of [Do] has run it before; the
    [Once] counts [f] as run also when [f] panics. *)
Definition once_Do (f : Globals -> option string * Globals) (g : Globals)
  : option string * Globals :=
  if once_done g then (None, g)
  else
    let '(panicked, g') := f g in
    (panicked,
     {| once_done := true; gWasmConfig := gWasmConfig g'; gWasmDir := gWasmDir g' |}).

(** [func WasmDir() string]: the result, or the panic value on the
    right. *)
Definition WasmDir (viper : Viper) (g : Globals) : (string + string) * Globals :=
  let '(panicked, g') := once_Do (Init viper) g in
  match panicked with
  | Some msg => (inr msg, g')
  | None => (inl (gWasmDir g'), g')
  end.

(** [func WasmConfig() types.WasmConfig] *)
Definition WasmConfig (viper : Viper) (g : Globals)
  : (types_WasmConfig + string) * Globals :=
  let '(panicked, g') := once_Do (Init viper) g in
  match panicked with
  | Some msg => (inr msg, g')
  | None => (inl (gWasmConfig g'), g')
  end.

End Config.

(** An environment to run the configuration code on: flags as the node
    names them, casts that accept integers, decimal digits and booleans,
    and paths joined by a slash.  It stands in for [cast], [viper] and
    [filepath] on such plain values only; the error texts are its own and
    the libraries' other conversions are left out. *)
Definition digits_value (s : string) : option Z :=
  match NilEmpty.uint_of_string s with
  | Some u => if String.eqb s "" then None else Some (Z.of_uint u)
  | None => None
  end.
Definition to_uint (bound : Z) (v : ConfigValue) : Z * option string :=
  match v with
  | CvInt i => if (0 <=? i) && (i <? bound) then (i, None)
               else (0, Some "unable to cast number")
  | CvString s =>
      match digits_value s with
      | Some i => if i <? bound then (i, None) else (0, Some "unable to cast string")
      | None => (0, Some "unable to cast string")
      end
  | CvBool b => ((if b then 1 else 0), None)
  end.
Definition to_bool (v : ConfigValue) : bool * option string :=
  match v with
  | CvBool b => (b, None)
  | CvInt i => (negb (i =? 0), None)
  | CvString s =>
      if String.eqb s "true" then (true, None)
      else if String.eqb s "false" then (false, None)
      else (false, Some "invalid syntax")
  end.

#[export] Instance nodeEnv : ConfigEnv := {|
  flagWasmMemoryCacheSize := "wasm.memory_cache_size";
  flagWasmQueryGasLimit := "wasm.query_gas_limit";
  flagWasmSimulationGasLimit := "wasm.simulation_gas_limit";
  FlagTrace := "trace";
  HomeFlag := "home";
  DefaultWasmConfig :=
    {| SimulationGasLimit := None; SmartQueryGasLimit := 3000000;
       MemoryCacheSize := 100; ContractDebugMode := false |};
  ToUint32E := to_uint (2 ^ 32);
  ToUint64E := to_uint (2 ^ 64);
  ToBoolE := to_bool;
  viper_GetString := fun viper key =>
    match viper key with
    | Some (CvString s) => s
    | _ => ""
    end;
  filepath_Join := fun a b => (a ++ "/" ++ b)%string
|}.

(** Settings given as a list of keys and values; the first entry of a key
    counts. *)
Fixpoint settings (kvs : list (string * ConfigValue)) : Viper :=
  fun key =>
    match kvs with
    | [] => None
    | (k, v) :: rest => if String.eqb key k then Some v else settings rest key
    end.

End Wasm.

(* ===================================================================== *)
(** ** [x/vmbridge/keeper/evm.go]: the bridge keeper *)
(* ===================================================================== *)

Module VMBridge.
Import Milestone.

Definition Bytes := list N.

(** [common.Address] and [sdk.AccAddress] are byte strings. *)
Definition Address := list N.

(** The [error] values the file returns itself, and those handed up from
    a collaborator. *)
Inductive Error :=
| ErrUnknownRequestWrap (errMsg : string)
    (* sdkerrors.Wrap(sdkerrors.ErrUnknownRequest, errMsg) *)
| ErrVMBridgeEnable
| ErrIsNotETHAddr
| ErrChainConfigNotFound
| ErrCollaborator (msg : string).

(** A Go call either returns or panics (failed type assertion, index out
    of range, nil dereference). *)
Inductive Outcome (A : Type) :=
| Returned (a : A)
| Panicked.
Arguments Returned {A} a.
Arguments Panicked {A}.

(** The elements of the [[]interface{}] that [abi.Arguments.Unpack]
    returns. *)
Inductive AbiValue :=
| AbiString (s : string)
| AbiBigInt (i : Z)
| AbiBool (b : bool).

(** The fields of [sdk.Context] the file reads. *)
Record Context := mkContext {
  BlockHeight : Z;            (* int64 *)
  ChainID : string;
  TxBytes : Bytes;
  GasMeterLimit : Z;          (* ctx.GasMeter().Limit(), uint64 *)
  IsCheckTx : bool;
  IsTraceTx : bool
}.

(** The SystemAccount of the spec, as far as the keeper uses the account
    interface: [GetSequence] and [SetSequence]. *)
Record Account := mkAccount {
  acc_address : Address;
  acc_sequence : Z            (* uint64 *)
}.

Definition GetSequence (acc : Account) : Z := acc_sequence acc.
Definition SetSequence (seq : Z) (acc : Account) : Account :=
  {| acc_address := acc_address acc; acc_sequence := seq |}.

Definition uint64_modulus : Z := 2 ^ 64.
(** [a + b] on [uint64]. *)
Definition uint64_add (a b : Z) : Z := (a + b) mod uint64_modulus.

Record WasmParams := mkWasmParams { VmbridgeEnable : bool }.
Record EvmParams := mkEvmParams { MaxGasLimitPerTx : Z }.

(** Modelled from the spec: [sdk.NewIntFromBigInt] and [sdk.Int.BigInt]
    are declared in [libs/cosmos-sdk/types], not in this file; the spec
    has the amount "decode to an arbitrary-precision integer", which an
    [sdk.Int] holds as it is.  The SDK bounds an [Int] to [maxBitLen]
    bits: its constructor panics ("NewIntFromBigInt() out of bound") when
    the bit length of the absolute value is larger. *)
Definition maxBitLen : Z := 255.
Definition NewIntFromBigInt (i : Z) : Outcome Z :=
  if 2 ^ maxBitLen <=? Z.abs i then Panicked else Returned i.
Definition BigInt (i : Z) : Z := i.

(** [common.BytesToAddress]: the last 20 bytes, padded with zeros on the
    left. *)
Definition AddressLength : nat := 20.
Definition BytesToAddress (b : Bytes) : Address :=
  let b' := drop (length b - AddressLength) b in
  (replicate (AddressLength - length b') 0%N ++ b')%list.

(** [fmt.Sprintf("%d", h)] *)
Definition fmt_d (h : Z) : string := NilZero.string_of_int (Z.to_int h).

(** The types of the EVM module that the keeper only passes on. *)
Class EvmTypes := {
  ChainConfig : Type;
  CommitStateDB : Type;
  ExecutionResult : Type;
  ResultData : Type;
  Ret : ResultData -> Bytes
}.

Section Keeper.
Context {evmTypes : EvmTypes}.

(** The chain state behind the context, as far as the keepers of this file
    read and write it. *)
Record Store := mkStore {
  accounts : gmap Address Z;                (* account keeper: the sequence
                                               of the account at an address *)
  wasmParams : WasmParams;                  (* wasm keeper *)
  chainConfig : option ChainConfig;         (* evm keeper *)
  evmParams : EvmParams;                    (* evm keeper *)
  contractCode : gmap Address Bytes         (* code written by Csdb.Commit *)
}.

(** [evmtypes.StateTransition] *)
Record StateTransition := mkStateTransition {
  AccountNonce : Z;
  Price : Z;
  GasLimit : Z;
  Recipient : option Address;
  Amount : Z;
  Payload : Bytes;
  Csdb : CommitStateDB;
  StChainID : Z;
  TxHash : Bytes;
  Sender : Address;
  Simulate : bool;
  TraceTx : bool;
  TraceTxLog : bool
}.

(** What [st.TransitionDb(ctx, config)] hands back: its first three
    results and the working state [st.Csdb] it has run on. *)
Record TransitionOutput := mkTransitionOutput {
  executionResult : option ExecutionResult;
  resultData : option ResultData;
  transitionErr : option Error;
  csdbAfter : CommitStateDB
}.

(** The functions the file calls and that are declared elsewhere. *)
Class Collaborators := {
  (* x/vmbridge/types *)
  Unpack : Bytes -> list AbiValue + Error;
  GetMintERC20Input : string -> Address -> Z -> Bytes + Error;
  GetMintERC20Output : Bytes -> bool * option Error;
  (* sdk *)
  IsETHAddress : string -> bool;
  AccAddressFromBech32 : string -> Address + Error;
  InfiniteGasMeterLimit : Z;
  (* ethermint, tmtypes, erc20types *)
  ParseChainID : string -> Z + Error;
  TxHashAt : Bytes -> Z -> Bytes;
  IbcEvmModuleETHAddr : Address;
  (* the keeper's own SendToWasm, in keeper.go *)
  SendToWasm :
    Context -> Address -> string -> string -> Z -> Store -> option Error * Store;
  (* x/evm *)
  CreateEmptyCommitStateDB : Context -> Store -> CommitStateDB;
  TransitionDb : Context -> ChainConfig -> StateTransition -> Store -> TransitionOutput;
  Commit : bool -> CommitStateDB -> Store -> Store
}.

Context {collab : Collaborators}.
Variable milestoneEarthHeight : Z.

(** A call into a keeper, the logger or the EVM, in program order. *)
Inductive Event :=
| EvWasmGetParams
| EvLogError (msg : string) (err : Error)
| EvSendToWasm (caller : Address) (wasmAddr recipient : string) (amount : Z)
| EvCallEvm (to : option Address) (value : Z) (data : Bytes)
| EvGetChainConfig
| EvGetAccount (addr : Address)
| EvNewAccountWithAddress (addr : Address)
| EvEvmGetParams
| EvTransitionDb (st : StateTransition)
| EvCommit (writeDebug : bool)
| EvSetAccount (acc : Account).

(** Keeper code runs on the store and leaves a trace of its calls. *)
Definition M (A : Type) : Type := Store -> A * Store * list Event.

Definition ret {A} (a : A) : M A := fun s => (a, s, []).
Definition bind {A B} (m : M A) (k : A -> M B) : M B :=
  fun s =>
    let '(a, s1, t1) := m s in
    let '(b, s2, t2) := k a s1 in
    (b, s2, (t1 ++ t2)%list).

Notation "x <- m ;; k" := (bind m (fun x => k))
  (at level 100, m at next level, right associativity).
Notation "m ;;; k" := (bind m (fun _ => k))
  (at level 100, right associativity).

(** *** The keepers *)

(** [h.wasmKeeper.GetParams(ctx)] *)
Definition wasmKeeper_GetParams (ctx : Context) : M WasmParams :=
  fun s => (wasmParams s, s, [EvWasmGetParams]).

(** [logger.Error(msg, "error", err)] *)
Definition logger_Error (msg : string) (err : Error) : M unit :=
  fun s => (tt, s, [EvLogError msg err]).

(** [h.Keeper.SendToWasm(ctx, caller, wasmAddr, recipient, amount)] *)
Definition Keeper_SendToWasm (ctx : Context) (caller : Address)
           (wasmAddr recipient : string) (amount : Z) : M (option Error) :=
  fun s =>
    let '(err, s') := SendToWasm ctx caller wasmAddr recipient amount s in
    (err, s', [EvSendToWasm caller wasmAddr recipient amount]).

(** [k.evmKeeper.GetChainConfig(ctx)]: [(config, found)] *)
Definition evmKeeper_GetChainConfig (ctx : Context) : M (option ChainConfig) :=
  fun s => (chainConfig s, s, [EvGetChainConfig]).

(** [k.evmKeeper.GetParams(ctx)] *)
Definition evmKeeper_GetParams (ctx : Context) : M EvmParams :=
  fun s => (evmParams s, s, [EvEvmGetParams]).

(** [k.accountKeeper.GetAccount(ctx, addr)]: [nil] when there is none. *)
Definition accountKeeper_GetAccount (ctx : Context) (addr : Address)
  : M (option Account) :=
  fun s => (mkAccount addr <$> accounts s !! addr, s, [EvGetAccount addr]).

(** Modelled from the spec: [accountKeeper.NewAccountWithAddress] is
    declared in the account keeper, not in this file; the spec has the
    SystemAccount "created deterministically at its fixed reserved
    address (lazy initialization, idempotent)": a new account object at
    that address with sequence 0, not yet stored. *)
Definition accountKeeper_NewAccountWithAddress (ctx : Context) (addr : Address)
  : M Account :=
  fun s => ({| acc_address := addr; acc_sequence := 0 |}, s,
            [EvNewAccountWithAddress addr]).

(** The store with [acc] written under its own address. *)
Definition putAccount (acc : Account) (s : Store) : Store :=
  {| accounts := <[acc_address acc := acc_sequence acc]> (accounts s);
     wasmParams := wasmParams s;
     chainConfig := chainConfig s;
     evmParams := evmParams s;
     contractCode := contractCode s |}.

(** [k.accountKeeper.SetAccount(ctx, acc)] *)
Definition accountKeeper_SetAccount (ctx : Context) (acc : Account) : M unit :=
  fun s => (tt, putAccount acc s, [EvSetAccount acc]).

(** Modelled from the spec: [StateTransition.TransitionDb] is declared in
    [x/evm/types], not in this file; the spec has it "execute the state
    transition against the current, not-yet-committed chain state
    snapshot": it reads the store and writes to the working state
    [st.Csdb] only. *)
Definition st_TransitionDb (ctx : Context) (config : ChainConfig)
           (st : StateTransition) : M TransitionOutput :=
  fun s => (TransitionDb ctx config st s, s, [EvTransitionDb st]).

(** [evmtypes.CreateEmptyCommitStateDB(k.evmKeeper.GenerateCSDBParams(), ctx)]:
    a fresh working state over the store of the context. *)
Definition evmtypes_CreateEmptyCommitStateDB (ctx : Context) : M CommitStateDB :=
  fun s => (CreateEmptyCommitStateDB ctx s, s, []).

(** Marks the entry into a function of the keeper in the trace. *)
Definition entered (e : Event) : M unit := fun s => (tt, s, [e]).

(** [st.Csdb.Commit(writeDebug)] *)
Definition Csdb_Commit (writeDebug : bool) (csdb : CommitStateDB) : M unit :=
  fun s => (tt, Commit writeDebug csdb s, [EvCommit writeDebug]).

(** *** [SendToWasmEventHandler.Handle] *)

(** The type assertions on [unpacked[i]]: to [string], and to a pointer
    to [big.Int]. *)
Definition assert_string (unpacked : list AbiValue) (i : nat) : Outcome string :=
  match unpacked !! i with
  | Some (AbiString s) => Returned s
  | _ => Panicked
  end.
Definition assert_bigInt (unpacked : list AbiValue) (i : nat) : Outcome Z :=
  match unpacked !! i with
  | Some (AbiBigInt v) => Returned v
  | _ => Panicked
  end.

Definition not_supported_msg (h : Z) : string :=
  ("vmbridger not supprt at height " ++ fmt_d h)%string.

Definition Handle (ctx : Context) (contract : Address) (data : Bytes)
  : M (Outcome (option Error)) :=
  if negb (HigherThanEarth milestoneEarthHeight (BlockHeight ctx)) then
    ret (Returned (Some (ErrUnknownRequestWrap (not_supported_msg (BlockHeight ctx)))))
  else
    params <- wasmKeeper_GetParams ctx ;;
    if negb (VmbridgeEnable params) then
      ret (Returned (Some ErrVMBridgeEnable))
    else
      match Unpack data with
      | inr err =>
          (* log and ignore *)
          logger_Error "log signature matches but failed to decode" err ;;;
          ret (Returned None)
      | inl unpacked =>
          let caller : Address := contract in
          match assert_string unpacked 0 with
          | Panicked => ret Panicked
          | Returned wasmAddr =>
          match assert_string unpacked 1 with
          | Panicked => ret Panicked
          | Returned recipient =>
          match assert_bigInt unpacked 2 with
          | Panicked => ret Panicked
          | Returned amountBig =>
          match NewIntFromBigInt amountBig with
          | Panicked => ret Panicked
          | Returned amount =>
              err <- Keeper_SendToWasm ctx caller wasmAddr recipient amount ;;
              ret (Returned err)
          end end end end
      end.

(** *** [Keeper.CallEvm] *)

Definition CallResult : Type :=
  option ExecutionResult * option ResultData * option Error.

Definition CallEvm (ctx : Context) (to : option Address) (value : Z)
           (data : Bytes) : M CallResult :=
  (entered (EvCallEvm to value data) ;;;
   let callerAddr := IbcEvmModuleETHAddr in
   found <- evmKeeper_GetChainConfig ctx ;;
   match found with
   | None => ret (None, None, Some ErrChainConfigNotFound)
   | Some config =>
   match ParseChainID (ChainID ctx) with
   | inr err => ret (None, None, Some err)
   | inl chainIDEpoch =>
       got <- accountKeeper_GetAccount ctx callerAddr ;;
       acc <- match got with
              | Some a => ret a
              | None => accountKeeper_NewAccountWithAddress ctx callerAddr
              end ;;
       let nonce := GetSequence acc in
       let ethTxHash := TxHashAt (TxBytes ctx) (BlockHeight ctx) in
       gasLimit <- (if GasMeterLimit ctx =? InfiniteGasMeterLimit
                    then p <- evmKeeper_GetParams ctx ;; ret (MaxGasLimitPerTx p)
                    else ret (GasMeterLimit ctx)) ;;
       csdb <- evmtypes_CreateEmptyCommitStateDB ctx ;;
       let st := {| AccountNonce := nonce;
                    Price := 0;
                    GasLimit := gasLimit;
                    Recipient := to;
                    Amount := value;
                    Payload := data;
                    Csdb := csdb;
                    StChainID := chainIDEpoch;
                    TxHash := ethTxHash;
                    Sender := callerAddr;
                    Simulate := IsCheckTx ctx;
                    TraceTx := false;
                    TraceTxLog := false |} in
       out <- st_TransitionDb ctx config st ;;
       match transitionErr out with
       | Some err => ret (None, None, Some err)
       | None =>
           Csdb_Commit false (csdbAfter out) ;;;   (* write code to db *)
           let acc' := SetSequence (uint64_add nonce 1) acc in
           accountKeeper_SetAccount ctx acc' ;;;
           ret (executionResult out, resultData out, None)
       end
   end end).

(** *** [Keeper.SendToEvm] *)

Definition SendToEvm (ctx : Context) (caller contract recipient : string)
           (amount : Z) : M (Outcome (bool * option Error)) :=
  if negb (IsETHAddress recipient) then
    ret (Returned (false, Some ErrIsNotETHAddr))
  else if negb (IsETHAddress contract) then
    ret (Returned (false, Some ErrIsNotETHAddr))
  else
    match AccAddressFromBech32 contract with
    | inr err => ret (Returned (false, Some err))
    | inl contractAccAddr =>
    let conrtractAddr := BytesToAddress contractAccAddr in
    match AccAddressFromBech32 recipient with
    | inr err => ret (Returned (false, Some err))
    | inl recipientAccAddr =>
    let recipientAddr := BytesToAddress recipientAccAddr in
    match GetMintERC20Input caller recipientAddr (BigInt amount) with
    | inr err => ret (Returned (false, Some err))
    | inl input =>
        r <- CallEvm ctx (Some conrtractAddr) 0 input ;;
        let '(_, result, err) := r in
        match err with
        | Some e => ret (Returned (false, Some e))
        | None =>
            match result with
            | None => ret Panicked           (* result.Ret on a nil pointer *)
            | Some res => ret (Returned (GetMintERC20Output (Ret res)))
            end
        end
    end end end.

(** *** Observations on a run *)

(** The sequence number of the SystemAccount as the store has it; an
    account that does not exist yet starts at the sequence of a new one. *)
Definition SystemSequence (s : Store) : Z :=
  match accounts s !! IbcEvmModuleETHAddr with
  | Some seq => seq
  | None => 0
  end.

(** The account object [CallEvm] works on: the stored SystemAccount, or
    the new one when there is none. *)
Definition callerAccount (s : Store) : Account :=
  {| acc_address := IbcEvmModuleETHAddr; acc_sequence := SystemSequence s |}.

(** The gas ceiling [CallEvm] passes on. *)
Definition callGasLimit (ctx : Context) (s : Store) : Z :=
  if GasMeterLimit ctx =? InfiniteGasMeterLimit
  then MaxGasLimitPerTx (evmParams s)
  else GasMeterLimit ctx.

(** The [StateTransition] literal [CallEvm] builds. *)
Definition callTransition (ctx : Context) (to : option Address) (value : Z)
           (data : Bytes) (chainIDEpoch : Z) (s : Store) : StateTransition :=
  {| AccountNonce := GetSequence (callerAccount s);
     Price := 0;
     GasLimit := callGasLimit ctx s;
     Recipient := to;
     Amount := value;
     Payload := data;
     Csdb := CreateEmptyCommitStateDB ctx s;
     StChainID := chainIDEpoch;
     TxHash := TxHashAt (TxBytes ctx) (BlockHeight ctx);
     Sender := IbcEvmModuleETHAddr;
     Simulate := IsCheckTx ctx;
     TraceTx := false;
     TraceTxLog := false |}.

(** The calls [CallEvm] makes before it runs the state transition. *)
Definition callPrelude (ctx : Context) (to : option Address) (value : Z)
           (data : Bytes) (s : Store) : list Event :=
  ([EvCallEvm to value data; EvGetChainConfig; EvGetAccount IbcEvmModuleETHAddr]
   ++ match accounts s !! IbcEvmModuleETHAddr with
      | Some _ => []
      | None => [EvNewAccountWithAddress IbcEvmModuleETHAddr]
      end
   ++ if GasMeterLimit ctx =? InfiniteGasMeterLimit then [EvEvmGetParams] else [])%list.

Definition result_of {A} (r : A * Store * list Event) : A := fst (fst r).
Definition store_of {A} (r : A * Store * list Event) : Store := snd (fst r).
Definition trace_of {A} (r : A * Store * list Event) : list Event := snd r.

(** An event that writes to the chain state or calls into a VM. *)
Definition is_effect (e : Event) : bool :=
  match e with
  | EvSendToWasm _ _ _ _ | EvCallEvm _ _ _ | EvTransitionDb _
  | EvCommit _ | EvSetAccount _ => true
  | _ => false
  end.

(** An event that writes to the chain state. *)
Definition writes_state (e : Event) : bool :=
  match e with
  | EvSendToWasm _ _ _ _ | EvCommit _ | EvSetAccount _ => true
  | _ => false
  end.

(** The spec's NotSupportedError: "height below activation, or bridge
    disabled". *)
Definition is_NotSupportedError (e : Error) : bool :=
  match e with
  | ErrUnknownRequestWrap _ | ErrVMBridgeEnable => true
  | _ => false
  end.

(** The spec's ValidationError, for a malformed address. *)
Definition is_ValidationError (e : Error) : bool :=
  match e with
  | ErrIsNotETHAddr => true
  | _ => false
  end.

End Keeper.
End VMBridge.

(* ===================================================================== *)
(** ** A closed instance of the collaborators *)
(* ===================================================================== *)

(** The keeper is stated over its collaborators.  To run it on concrete
    inputs they are instantiated here: the ABI layout of the event
    [SendToWasm(string,string,uint256)], hexadecimal-prefixed addresses,
    and a one-instruction EVM that either reverts or records the payload
    as code of the called address. *)
Module Reference.
Import VMBridge.

(** Big-endian bytes to integer and back, 32-byte ABI words. *)
Fixpoint be_to_Z (bs : Bytes) (acc : Z) : Z :=
  match bs with
  | [] => acc
  | b :: rest => be_to_Z rest (acc * 256 + Z.of_N b)
  end.

Fixpoint Z_to_be (n : nat) (v : Z) (acc : Bytes) : Bytes :=
  match n with
  | O => acc
  | S n' => Z_to_be n' (v / 256) (Z.to_N (v mod 256) :: acc)
  end.

Definition word (v : Z) : Bytes := Z_to_be 32 v [].

Definition word_at (data : Bytes) (off : nat) : option Z :=
  let w := take 32 (drop off data) in
  if Nat.eqb (length w) 32 then Some (be_to_Z w 0) else None.

Definition bytes_of_string (str : string) : Bytes :=
  map N_of_ascii (list_ascii_of_string str).
Definition string_of_bytes (bs : Bytes) : string :=
  string_of_list_ascii (map ascii_of_N bs).

(** Length-prefixed string data, padded to a multiple of 32 bytes. *)
Definition padded (bs : Bytes) : Bytes :=
  (bs ++ replicate ((32 - length bs mod 32) mod 32) 0%N)%list.
Definition enc_string (str : string) : Bytes :=
  let bs := bytes_of_string str in
  (word (Z.of_nat (length bs)) ++ padded bs)%list.

Definition string_at (data : Bytes) (head : nat) : option string :=
  match word_at data head with
  | None => None
  | Some off =>
      match word_at data (Z.to_nat off) with
      | None => None
      | Some len =>
          let bs := take (Z.to_nat len) (drop (Z.to_nat off + 32) data) in
          if Nat.eqb (length bs) (Z.to_nat len)
          then Some (string_of_bytes bs) else None
      end
  end.

(** The data of a log [SendToWasm(wasmAddr, recipient, amount)]. *)
Definition pack_SendToWasm (wasmAddr recipient : string) (amount : Z) : Bytes :=
  let e1 := enc_string wasmAddr in
  let e2 := enc_string recipient in
  (word 96 ++ word (96 + Z.of_nat (length e1)) ++ word amount ++ e1 ++ e2)%list.

Definition unpack_SendToWasm (data : Bytes) : list AbiValue + Error :=
  match string_at data 0, string_at data 32, word_at data 64 with
  | Some wasmAddr, Some recipient, Some amount =>
      inl [AbiString wasmAddr; AbiString recipient; AbiBigInt amount]
  | _, _, _ => inr (ErrCollaborator "abi: cannot unmarshal")
  end.

(** The return data of the ERC20 mint call: one ABI boolean. *)
Definition mint_output (ret : Bytes) : bool * option Error :=
  match word_at ret 0 with
  | Some v => (negb (v =? 0), None)
  | None => (false, Some (ErrCollaborator "call failed"))
  end.

Definition has_0x (addr : string) : bool :=
  String.prefix "0x" addr.

Definition address_bytes (addr : string) : Address + Error :=
  if has_0x addr then inl (bytes_of_string (String.substring 2 (String.length addr - 2) addr))
  else inr (ErrCollaborator "invalid address").

Definition parse_chain_id (chainID : string) : Z + Error :=
  if String.eqb chainID "" then inr (ErrCollaborator "chain-id cannot be blank")
  else inl (Z.of_nat (String.length chainID)).

#[export] Instance refTypes : EvmTypes := {|
  ChainConfig := Z;
  CommitStateDB := list (Address * Bytes);
  ExecutionResult := Z;
  ResultData := Bytes;
  Ret := fun r => r
|}.

Definition write_code (s : Store) (entries : list (Address * Bytes)) : Store :=
  {| accounts := accounts s;
     wasmParams := wasmParams s;
     chainConfig := chainConfig s;
     evmParams := evmParams s;
     contractCode := foldr (fun e m => <[fst e := snd e]> m) (contractCode s) entries |}.

(** Reverts on an empty payload; otherwise answers the ABI word [1] and
    leaves the payload as pending code of the recipient. *)
Definition ref_TransitionDb (ctx : Context) (config : Z) (st : StateTransition)
           (s : Store) : TransitionOutput :=
  match Payload st with
  | [] => {| executionResult := None; resultData := None;
             transitionErr := Some (ErrCollaborator "execution reverted");
             csdbAfter := Csdb st |}
  | _ => {| executionResult := Some (GasLimit st);
            resultData := Some (word 1);
            transitionErr := None;
            csdbAfter := match Recipient st with
                         | Some to => (to, Payload st) :: Csdb st
                         | None => Csdb st
                         end |}
  end.

(** Fails on an empty recipient and leaves the store as it is. *)
Definition ref_SendToWasm (ctx : Context) (caller : Address)
           (wasmAddr recipient : string) (amount : Z) (s : Store)
  : option Error * Store :=
  if String.eqb recipient "" then (Some (ErrCollaborator "empty address"), s)
  else (None, s).

#[export] Instance refCollab : Collaborators := {|
  Unpack := unpack_SendToWasm;
  GetMintERC20Input := fun caller recipient amount =>
    inl (bytes_of_string caller ++ recipient ++ word amount)%list;
  GetMintERC20Output := mint_output;
  IsETHAddress := has_0x;
  AccAddressFromBech32 := address_bytes;
  InfiniteGasMeterLimit := 0;
  ParseChainID := parse_chain_id;
  TxHashAt := fun tx h => (word h ++ tx)%list;
  IbcEvmModuleETHAddr := replicate 20 1%N;
  SendToWasm := ref_SendToWasm;
  CreateEmptyCommitStateDB := fun _ _ => [];
  TransitionDb := ref_TransitionDb;
  Commit := fun _ csdb s => write_code s csdb
|}.

Definition ctxAt (h : Z) : Context :=
  {| BlockHeight := h; ChainID := "exchain-66"; TxBytes := [1%N; 2%N; 3%N];
     GasMeterLimit := 0; IsCheckTx := false; IsTraceTx := false |}.

Definition storeWith (enable : bool) (accs : gmap Address Z) : Store :=
  {| accounts := accs;
     wasmParams := {| VmbridgeEnable := enable |};
     chainConfig := Some 66;
     evmParams := {| MaxGasLimitPerTx := 30000000 |};
     contractCode := ∅ |}.

Definition evmContract : Address := replicate 20 7%N.

(** A store without chain configuration. *)
Definition storeNoConfig : Store :=
  {| accounts := ∅;
     wasmParams := {| VmbridgeEnable := true |};
     chainConfig := None;
     evmParams := {| MaxGasLimitPerTx := 30000000 |};
     contractCode := ∅ |}.

(** The system account at sequence [seq], stored under its address. *)
Definition systemAt (seq : Z) : gmap Address Z :=
  {[ IbcEvmModuleETHAddr := seq ]}.

(** The store whose system account is at the last [uint64] sequence. *)
Definition storeTop : Store := storeWith true (systemAt 18446744073709551615).

(** The log of the spec's scenario: amount 500. *)
Definition log500 : Bytes := pack_SendToWasm "ex1wasmcontract" "ex1recipient" 500.

(** A log whose recipient is empty, which [ref_SendToWasm] refuses. *)
Definition logNoRecipient : Bytes := pack_SendToWasm "ex1wasmcontract" "" 7.

(** Collaborators that misbehave: a decoder that yields a single value,
    and an EVM that succeeds without return data.  The rest is as in
    [refCollab]. *)
Definition silent_TransitionDb (ctx : Context) (config : Z) (st : StateTransition)
           (s : Store) : TransitionOutput :=
  {| executionResult := Some (GasLimit st);
     resultData := Some [];
     transitionErr := None;
     csdbAfter := Csdb st |}.

Definition faultyCollab : Collaborators := {|
  Unpack := fun _ => inl [AbiString "ex1wasmcontract"];
  GetMintERC20Input := fun caller recipient amount =>
    inl (bytes_of_string caller ++ recipient ++ word amount)%list;
  GetMintERC20Output := mint_output;
  IsETHAddress := has_0x;
  AccAddressFromBech32 := address_bytes;
  InfiniteGasMeterLimit := 0;
  ParseChainID := parse_chain_id;
  TxHashAt := fun tx h => (word h ++ tx)%list;
  IbcEvmModuleETHAddr := replicate 20 1%N;
  SendToWasm := ref_SendToWasm;
  CreateEmptyCommitStateDB := fun _ _ => [];
  TransitionDb := silent_TransitionDb;
  Commit := fun _ csdb s => write_code s csdb
|}.

(** A log whose amount needs 256 bits. *)
Definition logOutOfBound : Bytes :=
  pack_SendToWasm "ex1wasmcontract" "ex1recipient" (2 ^ 255).

(** A context whose gas meter has the finite limit [gas]. *)
Definition ctxWithGas (h gas : Z) : Context :=
  {| BlockHeight := h; ChainID := "exchain-66"; TxBytes := [1%N; 2%N; 3%N];
     GasMeterLimit := gas; IsCheckTx := true; IsTraceTx := false |}.

End Reference.

(* ===================================================================== *)
(** ** Theorems: governance *)
(* ===================================================================== *)

Module GovFacts.
Import Gov.

Lemma valid_status_cases (status : ProposalStatus) :
  ValidProposalStatus status = true ->
  status = StatusDepositPeriod \/ status = StatusVotingPeriod \/
  status = StatusPassed \/ status = StatusRejected \/ status = StatusFailed.
Proof.
  unfold ValidProposalStatus.
  destruct (status =? StatusDepositPeriod) eqn:E1; [apply Z.eqb_eq in E1; tauto|].
  destruct (status =? StatusVotingPeriod) eqn:E2; [apply Z.eqb_eq in E2; tauto|].
  destruct (status =? StatusPassed) eqn:E3; [apply Z.eqb_eq in E3; tauto|].
  destruct (status =? StatusRejected) eqn:E4; [apply Z.eqb_eq in E4; tauto|].
  destruct (status =? StatusFailed) eqn:E5; [apply Z.eqb_eq in E5; tauto|].
  simpl. discriminate.
Qed.

Lemma valid_status_name (status : ProposalStatus) :
  ValidProposalStatus status = true ->
  In (ProposalStatus_String status) status_names.
Proof.
  intros Hv. destruct (valid_status_cases status Hv) as [->|[->|[->|[->| ->]]]];
    cbn; tauto.
Qed.

Lemma name_of_valid_status (str : string) :
  In str status_names ->
  exists status, ValidProposalStatus status = true /\
                 ProposalStatus_String status = str.
Proof.
  unfold status_names. cbn [In].
  intros [<-|[<-|[<-|[<-|[<-|[]]]]]];
    [exists StatusDepositPeriod | exists StatusVotingPeriod | exists StatusPassed
    | exists StatusRejected | exists StatusFailed]; split; reflexivity.
Qed.

Lemma from_string_unknown (str : string) :
  str <> "" -> ~ In str status_names ->
  ProposalStatusFromString str = (0xff, Some (invalid_status_error str)).
Proof.
  intros Hne Hnot. unfold ProposalStatusFromString.
  repeat match goal with
  | |- context [String.eqb str ?c] =>
      destruct (String.eqb_spec str c) as [Heq|_];
      [exfalso; first [apply Hne; exact Heq | apply Hnot; rewrite Heq; cbn; tauto]|]
  end.
  reflexivity.
Qed.

(** C10. The string form of a proposal status round-trips: for each of the
    five valid statuses, [ProposalStatusFromString] applied to the status's
    [String()] returns that status and no error; the empty string maps to
    [StatusNil] with no error; and every other non-empty string is
    answered with an error (and the status value [0xff]). *)
Theorem ProposalStatus_string_roundtrip :
  (forall status : ProposalStatus,
      ValidProposalStatus status = true ->
      ProposalStatusFromString (ProposalStatus_String status) = (status, None)) /\
  ProposalStatusFromString "" = (StatusNil, None) /\
  (forall str : string,
      str <> "" ->
      (forall status, ValidProposalStatus status = true ->
                      str <> ProposalStatus_String status) ->
      exists err, ProposalStatusFromString str = (0xff, Some err)).
Proof.
  split; [|split].
  - intros status Hv.
    destruct (valid_status_cases status Hv) as [->|[->|[->|[->| ->]]]];
      reflexivity.
  - reflexivity.
  - intros str Hne Hother.
    exists (invalid_status_error str). apply from_string_unknown; [exact Hne|].
    intros Hin. destruct (name_of_valid_status str Hin) as (status & Hv & Hs).
    apply (Hother status Hv). symmetry. exact Hs.
Qed.

Lemma ProposalStatus_string_roundtrip_witness :
  ProposalStatusFromString (ProposalStatus_String StatusRejected)
    = (StatusRejected, None) /\
  exists err, ProposalStatusFromString "Pending" = (0xff, Some err).
Proof.
  destruct ProposalStatus_string_roundtrip as (Hrt & _ & Hbad).
  split.
  - apply (Hrt StatusRejected). reflexivity.
  - apply (Hbad "Pending").
    + discriminate.
    + intros status Hv.
      destruct (valid_status_cases status Hv) as [->|[->|[->|[->| ->]]]];
        discriminate.
Defined.

(** *** More on the string and wire forms *)

Lemma invalid_status_string (status : ProposalStatus) :
  ValidProposalStatus status = false -> ProposalStatus_String status = "".
Proof.
  unfold ValidProposalStatus, ProposalStatus_String.
  destruct (status =? StatusDepositPeriod); [discriminate|].
  destruct (status =? StatusVotingPeriod); [discriminate|].
  destruct (status =? StatusPassed); [discriminate|].
  destruct (status =? StatusRejected); [discriminate|].
  destruct (status =? StatusFailed); [discriminate|].
  reflexivity.
Qed.

(** X1. Reading back the string of a status never fails, whatever the
    byte: a valid status comes back as itself, every other byte (its
    string is empty) comes back as [StatusNil]. *)
Theorem status_string_reads_back (status : ProposalStatus) :
  ProposalStatusFromString (ProposalStatus_String status)
  = (if ValidProposalStatus status then status else StatusNil, None).
Proof.
  destruct (ValidProposalStatus status) eqn:Hv.
  - destruct (valid_status_cases status Hv) as [->|[->|[->|[->| ->]]]];
      reflexivity.
  - rewrite (invalid_status_string status Hv). reflexivity.
Qed.

(** X2. A string that [ProposalStatusFromString] accepts is the string of
    the status it returns, and that status is [StatusNil] or valid: no two
    strings are read as the same status. *)
Theorem accepted_string_is_status_string (str : string) (status : ProposalStatus) :
  ProposalStatusFromString str = (status, None) ->
  ProposalStatus_String status = str /\
  (status = StatusNil \/ ValidProposalStatus status = true).
Proof.
  unfold ProposalStatusFromString.
  repeat match goal with
  | |- context [String.eqb str ?c] =>
      destruct (String.eqb_spec str c) as [->|_];
      [intros [= <-]; split; [reflexivity|auto]|]
  end.
  discriminate.
Qed.

Lemma accepted_string_is_status_string_witness :
  ProposalStatus_String StatusPassed = "Passed" /\
  (StatusPassed = StatusNil \/ ValidProposalStatus StatusPassed = true).
Proof.
  apply (accepted_string_is_status_string "Passed" StatusPassed). reflexivity.
Defined.

(** X3. [Unmarshal] reads back what [Marshal] wrote, ignores the bytes
    that follow and checks nothing: any first byte becomes the status;
    on empty data it panics. *)
Theorem Marshal_Unmarshal (status old : ProposalStatus) (rest : list Z) :
  snd (Marshal status) = None /\
  Unmarshal old (fst (Marshal status) ++ rest) = Ran (status, None) /\
  (exists msg, Unmarshal old [] = Panic msg).
Proof.
  split; [reflexivity|]. split; [reflexivity|]. eexists. reflexivity.
Qed.

(** X4. [MarshalYAML] gives the text of [String], with no error, for
    every status byte. *)
Theorem MarshalYAML_is_String (status : ProposalStatus) :
  MarshalYAML status = (ProposalStatus_String status, None).
Proof.
  unfold MarshalYAML, ProposalStatus_String.
  repeat match goal with
  | |- context [status =? ?c] => destruct (status =? c); [reflexivity|]
  end.
  reflexivity.
Qed.

Section Json.
Context {json : JsonString}.

(** X5. Over a JSON codec that reads back the six strings [String] can
    return, [UnmarshalJSON] reads what [MarshalJSON] wrote without error:
    a valid status comes back as itself, every other byte as
    [StatusNil]. *)
Theorem MarshalJSON_UnmarshalJSON (status old : ProposalStatus) :
  (forall s, In s ("" :: status_names) ->
             snd (json_Marshal s) = None /\
             json_Unmarshal (fst (json_Marshal s)) = inl s) ->
  snd (MarshalJSON status) = None /\
  UnmarshalJSON old (fst (MarshalJSON status))
  = (if ValidProposalStatus status then status else StatusNil, None).
Proof.
  intros Hcodec. unfold MarshalJSON, UnmarshalJSON.
  assert (Hin : In (ProposalStatus_String status) ("" :: status_names)).
  { destruct (ValidProposalStatus status) eqn:Hv.
    - right. apply valid_status_name, Hv.
    - left. symmetry. apply invalid_status_string, Hv. }
  destruct (Hcodec _ Hin) as [Hok Hback].
  split; [exact Hok|]. rewrite Hback, status_string_reads_back. reflexivity.
Qed.

(** X6. [UnmarshalJSON] returns the error of [json.Unmarshal] when that
    fails, and the error of [ProposalStatusFromString] when the decoded
    string is not a status name, and then leaves the receiver as it was.
    Data that decodes to the empty string, as [null] does, sets the
    receiver to [StatusNil] with no error.  Whenever it returns nil, the
    new status is the one whose [String()] is the decoded string. *)
Theorem UnmarshalJSON_failure_keeps_status (old : ProposalStatus) (data : list Z) :
  (forall err, json_Unmarshal data = inr err ->
               UnmarshalJSON old data = (old, Some err)) /\
  (forall s, json_Unmarshal data = inl s ->
             s <> "" -> ~ In s status_names ->
             UnmarshalJSON old data = (old, Some (invalid_status_error s))) /\
  (json_Unmarshal data = inl "" ->
   UnmarshalJSON old data = (StatusNil, None)) /\
  (forall new, UnmarshalJSON old data = (new, None) ->
               exists s, json_Unmarshal data = inl s /\
                         ProposalStatus_String new = s).
Proof.
  unfold UnmarshalJSON. split; [|split; [|split]].
  - intros err ->. reflexivity.
  - intros s -> Hne Hnot. rewrite (from_string_unknown s Hne Hnot). reflexivity.
  - intros ->. reflexivity.
  - intros new. destruct (json_Unmarshal data) as [s|err]; [|discriminate].
    destruct (ProposalStatusFromString s) as [bz2 [err|]] eqn:Hs; [discriminate|].
    intros [= <-]. exists s. split; [reflexivity|].
    apply (accepted_string_is_status_string s bz2 Hs).
Qed.

End Json.

Lemma plainJson_reads_back (s : string) :
  In s ("" :: status_names) ->
  snd (json_Marshal s) = None /\ json_Unmarshal (fst (json_Marshal s)) = inl s.
Proof.
  cbn [In status_names].
  intros [<-|[<-|[<-|[<-|[<-|[<-|[]]]]]]]; split; vm_compute; reflexivity.
Qed.

Lemma MarshalJSON_UnmarshalJSON_witness :
  UnmarshalJSON StatusNil (fst (MarshalJSON StatusVotingPeriod))
  = (StatusVotingPeriod, None) /\
  UnmarshalJSON StatusPassed (fst (MarshalJSON 7)) = (StatusNil, None).
Proof.
  split.
  - apply (MarshalJSON_UnmarshalJSON StatusVotingPeriod StatusNil plainJson_reads_back).
  - apply (MarshalJSON_UnmarshalJSON 7 StatusPassed plainJson_reads_back).
Defined.

Lemma UnmarshalJSON_failure_keeps_status_witness :
  (exists err, UnmarshalJSON StatusPassed [55] = (StatusPassed, Some err)) /\
  UnmarshalJSON StatusPassed (fst (json_Marshal "Pending"))
  = (StatusPassed, Some (invalid_status_error "Pending")) /\
  UnmarshalJSON StatusPassed json_null = (StatusNil, None).
Proof.
  split; [|split].
  - exists "invalid JSON string".
    apply (proj1 (UnmarshalJSON_failure_keeps_status StatusPassed [55])).
    vm_compute. reflexivity.
  - apply (proj1 (proj2 (UnmarshalJSON_failure_keeps_status StatusPassed
                           (fst (json_Marshal "Pending"))))).
    + vm_compute. reflexivity.
    + discriminate.
    + cbn. intros [H|[H|[H|[H|[H|[]]]]]]; discriminate H.
  - apply (proj1 (proj2 (proj2 (UnmarshalJSON_failure_keeps_status StatusPassed
                                  json_null)))).
    vm_compute. reflexivity.
Defined.

(** *** The registry of proposal types *)

(** Membership and equality of sets, by unfolding to propositions. *)
Local Ltac set_tauto := try (apply set_eq; intros ?); set_unfold; tauto.

Lemma IsValidProposalType_spec (ty : string) (reg : gset string) :
  IsValidProposalType ty reg = true <-> ty ∈ reg.
Proof. unfold IsValidProposalType. apply bool_decide_eq_true. Qed.

Lemma IsValidProposalType_false (ty : string) (reg : gset string) :
  IsValidProposalType ty reg = false <-> ty ∉ reg.
Proof. unfold IsValidProposalType. apply bool_decide_eq_false. Qed.

(** X7. A registration that returns makes the type valid, found it not
    valid before, and changes the validity of no other type. *)
Theorem RegisterProposalType_registers (ty : string) (reg reg' : gset string) :
  RegisterProposalType ty reg = Ran reg' ->
  IsValidProposalType ty reg = false /\
  IsValidProposalType ty reg' = true /\
  (forall ty', ty' <> ty ->
               IsValidProposalType ty' reg' = IsValidProposalType ty' reg).
Proof.
  unfold RegisterProposalType.
  destruct (decide (ty ∈ reg)) as [Hin|Hnot]; [discriminate|].
  intros [= <-]. split; [|split].
  - apply IsValidProposalType_false, Hnot.
  - apply IsValidProposalType_spec. set_tauto.
  - intros ty' Hne. unfold IsValidProposalType.
    apply bool_decide_ext. set_tauto.
Qed.

Lemma RegisterProposalType_registers_witness :
  IsValidProposalType "ParameterChange" initialProposalTypes = false /\
  IsValidProposalType "ParameterChange"
    ({[ "ParameterChange" ]} ∪ initialProposalTypes) = true.
Proof.
  destruct (RegisterProposalType_registers "ParameterChange" initialProposalTypes
              ({[ "ParameterChange" ]} ∪ initialProposalTypes))
    as (Hbefore & Hafter & _).
  - vm_compute. reflexivity.
  - split; [exact Hbefore|exact Hafter].
Defined.

(** X8. A run of registrations returns exactly when the types are
    pairwise different and none of them was registered before; the
    registry is then the old one with these types added, so no type ever
    stops being valid. *)
Theorem RegisterAll_returns_iff (tys : list string) (reg reg' : gset string) :
  RegisterAll tys reg = Ran reg' <->
  NoDup tys /\ (forall ty, ty ∈ tys -> ty ∉ reg) /\
  reg' = list_to_set tys ∪ reg.
Proof.
  revert reg. induction tys as [|ty tys IH]; intros reg; cbn [RegisterAll].
  - split.
    + intros [= <-]. split; [constructor|]. split; [|set_tauto].
      intros ty Hin. inversion Hin.
    + intros (_ & _ & ->). f_equal. set_tauto.
  - unfold RegisterProposalType.
    destruct (decide (ty ∈ reg)) as [Hin|Hnot].
    + split; [discriminate|].
      intros (_ & Hfresh & _). exfalso. apply (Hfresh ty); [left|exact Hin].
    + rewrite IH. rewrite NoDup_cons. split.
      * intros (Hnd & Hfresh & ->). split; [split; [|exact Hnd]|split].
        -- intros Hin. apply (Hfresh ty Hin). set_tauto.
        -- intros ty' Hin'. apply elem_of_cons in Hin' as [->|Hin']; [exact Hnot|].
           intros Hreg. apply (Hfresh ty' Hin'). set_tauto.
        -- set_tauto.
      * intros ((Hnotin & Hnd) & Hfresh & ->). split; [exact Hnd|split].
        -- intros ty' Hin' Hreg. apply elem_of_union in Hreg as [Hty|Hreg].
           ++ apply elem_of_singleton in Hty as ->. contradiction.
           ++ apply (Hfresh ty'); [right; exact Hin'|exact Hreg].
        -- set_tauto.
Qed.

Lemma RegisterAll_returns_iff_witness :
  RegisterAll ["ParameterChange"; "CommunityPoolSpend"] initialProposalTypes
  = Ran (list_to_set ["ParameterChange"; "CommunityPoolSpend"] ∪ initialProposalTypes).
Proof.
  apply (proj2 (RegisterAll_returns_iff ["ParameterChange"; "CommunityPoolSpend"]
                  initialProposalTypes _)).
  split; [|split; [|reflexivity]].
  - apply NoDup_cons. split; [|apply NoDup_singleton].
    intros Hin. apply list_elem_of_singleton in Hin. discriminate Hin.
  - intros ty Hin Hreg. unfold initialProposalTypes in Hreg.
    apply elem_of_union in Hreg as [Hreg|Hreg];
      apply elem_of_singleton in Hreg; subst ty;
      apply elem_of_cons in Hin as [Hin|Hin]; try discriminate Hin;
      apply list_elem_of_singleton in Hin; discriminate Hin.
Defined.

(** X9. In every registry reached from the initial one by registrations,
    the two built-in types are valid and registering either of them again
    panics. *)
Theorem builtin_types_stay_registered (tys : list string) (reg : gset string)
        (ty : string) :
  RegisterAll tys initialProposalTypes = Ran reg ->
  ty = ProposalTypeText \/ ty = ProposalTypeSoftwareUpgrade ->
  IsValidProposalType ty reg = true /\
  RegisterProposalType ty reg
  = Panic ("already registered proposal type: " ++ ty)%string /\
  ty ∉ tys.
Proof.
  intros Hrun Hty.
  apply RegisterAll_returns_iff in Hrun as (_ & Hfresh & ->).
  assert (Hinit : ty ∈ initialProposalTypes).
  { unfold initialProposalTypes. destruct Hty as [-> | ->]; set_tauto. }
  assert (Hin : ty ∈ list_to_set tys ∪ initialProposalTypes) by set_tauto.
  split; [apply IsValidProposalType_spec, Hin|]. split.
  - unfold RegisterProposalType.
    destruct (decide (ty ∈ list_to_set tys ∪ initialProposalTypes)); [reflexivity|].
    contradiction.
  - intros Htys. apply (Hfresh ty Htys Hinit).
Qed.

Lemma builtin_types_stay_registered_witness :
  IsValidProposalType "Text" ({[ "ParameterChange" ]} ∪ initialProposalTypes) = true /\
  RegisterProposalType "Text" ({[ "ParameterChange" ]} ∪ initialProposalTypes)
  = Panic "already registered proposal type: Text".
Proof.
  destruct (builtin_types_stay_registered ["ParameterChange"]
              ({[ "ParameterChange" ]} ∪ initialProposalTypes) "Text")
    as (Hvalid & Hpanic & _).
  - vm_compute. reflexivity.
  - left. reflexivity.
  - split; [exact Hvalid|exact Hpanic].
Defined.

(** *** Contents *)

(** X10. [ContentFromProposalType] builds a content exactly for the two
    built-in type names, and the content then carries the title, the
    description and the type it was built from; the registry is not
    consulted, so a type registered later is valid and still gets nil. *)
Theorem ContentFromProposalType_builtin_only (title desc ty : string) :
  (forall c, ContentFromProposalType title desc ty = Some c ->
             (ty = ProposalTypeText \/ ty = ProposalTypeSoftwareUpgrade) /\
             ProposalType c = ty /\ GetTitle c = title /\ GetDescription c = desc) /\
  (ty = ProposalTypeText \/ ty = ProposalTypeSoftwareUpgrade ->
   exists c, ContentFromProposalType title desc ty = Some c) /\
  (forall reg, RegisterProposalType ty initialProposalTypes = Ran reg ->
               IsValidProposalType ty reg = true /\
               ContentFromProposalType title desc ty = None).
Proof.
  unfold ContentFromProposalType. split; [|split].
  - intros c.
    destruct (String.eqb_spec ty ProposalTypeText) as [->|_].
    { intros [= <-]. cbn. auto. }
    destruct (String.eqb_spec ty ProposalTypeSoftwareUpgrade) as [->|_].
    { intros [= <-]. cbn. auto. }
    discriminate.
  - intros [-> | ->]; eexists; reflexivity.
  - intros reg Hreg.
    destruct (RegisterProposalType_registers ty _ _ Hreg) as (Hnot & Hvalid & _).
    split; [exact Hvalid|].
    apply IsValidProposalType_false in Hnot. unfold initialProposalTypes in Hnot.
    destruct (String.eqb_spec ty ProposalTypeText) as [->|_]; [set_tauto|].
    destruct (String.eqb_spec ty ProposalTypeSoftwareUpgrade) as [->|_]; [set_tauto|].
    reflexivity.
Qed.

Lemma ContentFromProposalType_builtin_only_witness :
  (exists c, ContentFromProposalType "t" "d" "Text" = Some c) /\
  ContentFromProposalType "t" "d" "ParameterChange" = None.
Proof.
  destruct (ContentFromProposalType_builtin_only "t" "d" "Text") as (_ & Hsome & _).
  destruct (ContentFromProposalType_builtin_only "t" "d" "ParameterChange")
    as (_ & _ & Hnone).
  split.
  - apply Hsome. left. reflexivity.
  - apply (Hnone ({[ "ParameterChange" ]} ∪ initialProposalTypes)).
    vm_compute. reflexivity.
Defined.

(** X11. [ProposalHandler] returns nil on every content that
    [ContentFromProposalType] builds, panics on the nil content it returns
    for any other type name, and answers a content of another type with
    the unknown-request error that names the type. *)
Theorem ProposalHandler_on_built_content (title desc ty : string) :
  (forall c, ContentFromProposalType title desc ty = Some c ->
             ProposalHandler (Some c) = Ran None) /\
  (ty <> ProposalTypeText -> ty <> ProposalTypeSoftwareUpgrade ->
   (exists msg, ProposalHandler (ContentFromProposalType title desc ty) = Panic msg) /\
   ProposalHandler (Some (OtherContent title desc ty))
   = Ran (Some (ErrUnknownRequest ("unrecognized gov proposal type: " ++ ty)%string))).
Proof.
  split.
  - intros c Hc.
    destruct (ContentFromProposalType_builtin_only title desc ty) as (Hbuilt & _).
    destruct (Hbuilt c Hc) as (Hty & Htype & _).
    unfold ProposalHandler. rewrite Htype.
    destruct Hty as [-> | ->]; reflexivity.
  - intros Hn1 Hn2. unfold ContentFromProposalType, ProposalHandler.
    cbn [ProposalType].
    destruct (String.eqb_spec ty ProposalTypeText) as [Heq|_]; [contradiction|].
    destruct (String.eqb_spec ty ProposalTypeSoftwareUpgrade) as [Heq|_];
      [contradiction|].
    split; [eexists; reflexivity|reflexivity].
Qed.

Lemma ProposalHandler_on_built_content_witness :
  ProposalHandler (Some (SoftwareUpgradeProposal "t" "d")) = Ran None /\
  ProposalHandler (Some (OtherContent "t" "d" "ParameterChange"))
  = Ran (Some (ErrUnknownRequest "unrecognized gov proposal type: ParameterChange")).
Proof.
  destruct (ProposalHandler_on_built_content "t" "d" "SoftwareUpgrade") as (Hok & _).
  destruct (ProposalHandler_on_built_content "t" "d" "ParameterChange") as (_ & Hbad).
  split.
  - apply Hok. reflexivity.
  - apply Hbad; discriminate.
Defined.

(** *** Tally results *)

Section Tally.
Context {decimal : Decimal}.

(** X12. [Equals] compares the four vote counts and nothing else: over a
    decimal equality that holds between a value and itself, two tally
    results with the same counts are [Equals] whatever their total power
    and total voted power; so are the empty tallies of any two voting
    totals. *)
Theorem Equals_ignores_totals :
  (forall d : Dec, Dec_Equal d d = true) ->
  (forall tr comp : TallyResult,
      Yes tr = Yes comp -> Abstain tr = Abstain comp ->
      No tr = No comp -> NoWithVeto tr = NoWithVeto comp ->
      Equals tr comp = true) /\
  (forall totalVoting totalVoting' : Dec,
      Equals (EmptyTallyResult totalVoting) (EmptyTallyResult totalVoting') = true).
Proof.
  intros Hrefl. split.
  - intros tr comp Hy Ha Hn Hv. unfold Equals.
    rewrite Hy, Ha, Hn, Hv, !Hrefl. reflexivity.
  - intros totalVoting totalVoting'. unfold Equals, EmptyTallyResult.
    cbn [Yes Abstain No NoWithVeto]. rewrite !Hrefl. reflexivity.
Qed.

(** X13. With four different option keys, the tally built from the map
    that holds one count per option is the tally built from the counts;
    a key the map lacks gives the zero value, so the empty map gives the
    tally of four zero values. *)
Theorem NewTallyResultFromMap_of_counts
        (OptionYes OptionAbstain OptionNo OptionNoWithVeto : Z)
        (yes abstain no noWithVeto : Dec) :
  NoDup [OptionYes; OptionAbstain; OptionNo; OptionNoWithVeto] ->
  NewTallyResultFromMap OptionYes OptionAbstain OptionNo OptionNoWithVeto
    (<[OptionYes := yes]> (<[OptionAbstain := abstain]>
       (<[OptionNo := no]> {[ OptionNoWithVeto := noWithVeto ]})))
  = NewTallyResult yes abstain no noWithVeto /\
  NewTallyResultFromMap OptionYes OptionAbstain OptionNo OptionNoWithVeto ∅
  = NewTallyResult NilDec NilDec NilDec NilDec.
Proof.
  intros Hnd.
  apply NoDup_cons in Hnd as [Hy Hnd].
  apply NoDup_cons in Hnd as [Ha Hnd].
  apply NoDup_cons in Hnd as [Hn _].
  set_unfold.
  assert (OptionYes <> OptionAbstain) by tauto.
  assert (OptionYes <> OptionNo) by tauto.
  assert (OptionYes <> OptionNoWithVeto) by tauto.
  assert (OptionAbstain <> OptionNo) by tauto.
  assert (OptionAbstain <> OptionNoWithVeto) by tauto.
  assert (OptionNo <> OptionNoWithVeto) by tauto.
  unfold NewTallyResultFromMap, NewTallyResult, map_index. split.
  - rewrite lookup_insert_eq.
    rewrite (lookup_insert_ne _ OptionYes OptionAbstain) by assumption.
    rewrite lookup_insert_eq.
    rewrite (lookup_insert_ne _ OptionYes OptionNo) by assumption.
    rewrite (lookup_insert_ne _ OptionAbstain OptionNo) by assumption.
    rewrite lookup_insert_eq.
    rewrite (lookup_insert_ne _ OptionYes OptionNoWithVeto) by assumption.
    rewrite (lookup_insert_ne _ OptionAbstain OptionNoWithVeto) by assumption.
    rewrite (lookup_insert_ne _ OptionNo OptionNoWithVeto) by assumption.
    rewrite lookup_singleton_eq. reflexivity.
  - rewrite ?lookup_empty. reflexivity.
Qed.

End Tally.

Lemma Equals_ignores_totals_witness :
  Equals (EmptyTallyResult 100) (EmptyTallyResult 250) = true.
Proof.
  apply (proj2 (Equals_ignores_totals (decimal := intDecimal) Z.eqb_refl)).
Defined.

Lemma NewTallyResultFromMap_of_counts_witness :
  NewTallyResultFromMap 1 2 3 4 (<[1 := 10]> (<[2 := 20]> (<[3 := 30]> {[ 4 := 40 ]})))
  = NewTallyResult 10 20 30 40.
Proof.
  apply (proj1 (NewTallyResultFromMap_of_counts (decimal := intDecimal)
                  1 2 3 4 10 20 30 40
                  ltac:(repeat constructor; set_unfold; lia))).
Defined.

End GovFacts.

(* ===================================================================== *)
(** ** Theorems: store filters *)
(* ===================================================================== *)

Module WasmFacts.
Import Milestone Wasm.

Section Filters.
Variable ModuleName : string.

Lemma commit_filter_other_module (H : Z) (module : string) (h : Z)
      (s : option CommitKVStore) :
  module <> ModuleName ->
  defaultCommitFilter ModuleName H module h s = (false, s).
Proof.
  intros Hne. unfold defaultCommitFilter.
  destruct (String.eqb_spec module ModuleName) as [Heq|_]; [contradiction|].
  reflexivity.
Qed.

Lemma prune_filter_other_module (H : Z) (module : string) (h : Z)
      (s : option CommitKVStore) :
  module <> ModuleName ->
  defaultPruneFilter ModuleName H module h s = (false, s).
Proof.
  intros Hne. unfold defaultPruneFilter.
  destruct (String.eqb_spec module ModuleName) as [Heq|_]; [contradiction|].
  reflexivity.
Qed.

Lemma deny_filter_other_module (module : string) (h : Z)
      (s : option CommitKVStore) :
  module <> ModuleName ->
  defaultDenyFilter ModuleName module h s = (false, s).
Proof.
  intros Hne. unfold defaultDenyFilter.
  destruct (String.eqb_spec module ModuleName) as [Heq|_]; [contradiction|].
  reflexivity.
Qed.

Lemma commit_filter_below (H h : Z) (s : option CommitKVStore) :
  h < H -> defaultCommitFilter ModuleName H ModuleName h s = (true, s).
Proof.
  intros Hlt. unfold defaultCommitFilter, GetEarthHeight, HigherThanEarth.
  rewrite String.eqb_refl. cbn [negb].
  destruct (Z.eqb_spec h H) as [Heq|_]; [lia|].
  destruct (Z.leb_spec H h) as [Hgt|_]; [lia|]. reflexivity.
Qed.

Lemma commit_filter_at (H : Z) (s : option CommitKVStore) :
  defaultCommitFilter ModuleName H ModuleName H s
  = (false, SetUpgradeVersion H <$> s).
Proof.
  unfold defaultCommitFilter, GetEarthHeight.
  rewrite String.eqb_refl, Z.eqb_refl. cbn [negb].
  destruct s; reflexivity.
Qed.

Lemma commit_filter_above (H h : Z) (s : option CommitKVStore) :
  H < h -> defaultCommitFilter ModuleName H ModuleName h s = (false, s).
Proof.
  intros Hgt. unfold defaultCommitFilter, GetEarthHeight, HigherThanEarth.
  rewrite String.eqb_refl. cbn [negb].
  destruct (Z.eqb_spec h H) as [Heq|_]; [lia|].
  destruct (Z.leb_spec H h) as [_|Hle]; [reflexivity|lia].
Qed.

Lemma stamp_idempotent (h : Z) (s : option CommitKVStore) :
  SetUpgradeVersion h <$> (SetUpgradeVersion h <$> s) = SetUpgradeVersion h <$> s.
Proof. destruct s as [st|]; reflexivity. Qed.

End Filters.

(** C7. The commit filter of the module, by height [h] against the
    activation height [H]: below [H] it excludes the module's store and
    leaves the store as it is; at [H] it includes the store and stamps the
    version marker with [H] (on a store that is present), and a second
    evaluation at [H] gives the same answer and the same store as the
    first; above [H] it includes the store and does not stamp. *)
Theorem commit_filter_by_height (ModuleName : string) (H h : Z)
        (s : option CommitKVStore) :
  let filter := defaultCommitFilter ModuleName H ModuleName in
  (h < H -> filter h s = (true, s)) /\
  (h = H ->
     filter h s = (false, SetUpgradeVersion H <$> s) /\
     (forall st, s = Some st ->
        upgradeVersion <$> snd (filter h s) = Some H /\
        kvData <$> snd (filter h s) = Some (kvData st)) /\
     filter h (snd (filter h s)) = filter h s) /\
  (H < h -> filter h s = (false, s)).
Proof.
  cbv zeta. split; [|split].
  - apply commit_filter_below.
  - intros ->. rewrite !commit_filter_at. cbn [snd].
    split; [reflexivity|]. split.
    + intros st ->. split; reflexivity.
    + rewrite stamp_idempotent. reflexivity.
  - apply commit_filter_above.
Qed.

Lemma commit_filter_by_height_witness :
  defaultCommitFilter "wasm" 100 "wasm" 99 (Some store0) = (true, Some store0) /\
  defaultCommitFilter "wasm" 100 "wasm" 100 (Some store0)
  = (false, Some {| upgradeVersion := 100; kvData := [([1%N], [2%N])] |}) /\
  defaultCommitFilter "wasm" 100 "wasm" 100
    (snd (defaultCommitFilter "wasm" 100 "wasm" 100 (Some store0)))
  = defaultCommitFilter "wasm" 100 "wasm" 100 (Some store0) /\
  defaultCommitFilter "wasm" 100 "wasm" 101 (Some store0) = (false, Some store0).
Proof.
  unfold store0.
  pose proof (commit_filter_by_height "wasm" 100 99
                (Some {| upgradeVersion := 0; kvData := [([1%N], [2%N])] |})) as H99.
  pose proof (commit_filter_by_height "wasm" 100 100
                (Some {| upgradeVersion := 0; kvData := [([1%N], [2%N])] |})) as H100.
  pose proof (commit_filter_by_height "wasm" 100 101
                (Some {| upgradeVersion := 0; kvData := [([1%N], [2%N])] |})) as H101.
  cbv zeta in H99, H100, H101.
  destruct H99 as (Hlo & _ & _), H100 as (_ & Hat & _), H101 as (_ & _ & Hhi).
  destruct (Hat eq_refl) as (Heq & _ & Htwice).
  split; [|split; [|split]].
  - apply Hlo. lia.
  - exact Heq.
  - exact Htwice.
  - apply Hhi. lia.
Defined.

(** C8 (as amended). Invoked with a negative height argument, the
    version filter yields an enumerator that never runs its callback: it
    reports no entry, for no module name, whatever the module and the
    milestone are. *)
Theorem version_filter_unset_reports_nothing (ModuleName : string) (H h : Z) :
  h < 0 ->
  (forall (S : Type) (cb : string -> Z -> S -> S) (st : S),
      defaultVersionFilter ModuleName H h S cb st = st) /\
  reported (defaultVersionFilter ModuleName H h) = [] /\
  (forall (name : string) (version : Z),
      ~ In (name, version) (reported (defaultVersionFilter ModuleName H h))).
Proof.
  intros Hneg.
  assert (Hfilter : defaultVersionFilter ModuleName H h = fun S cb st => st).
  { unfold defaultVersionFilter.
    destruct (Z.ltb_spec h 0) as [_|Hge]; [reflexivity|lia]. }
  rewrite Hfilter. split; [reflexivity|]. split; [reflexivity|].
  intros name version Hin. exact Hin.
Qed.

Lemma version_filter_unset_reports_nothing_witness :
  reported (defaultVersionFilter "wasm" 100 (-1)) = [].
Proof.
  apply (version_filter_unset_reports_nothing "wasm" 100 (-1)). lia.
Defined.

(** C8, as stated, fails: with the activation height unset (the negative
    sentinel -1), the version filter invoked at height 0 yields an
    enumerator that reports one entry, the module at version -1. *)
Lemma version_filter_reports_unset_milestone :
  GetEarthHeight (-1) < 0 /\
  reported (defaultVersionFilter "wasm" (-1) 0) = [("wasm", -1)] /\
  reported (defaultVersionFilter "wasm" (-1) 0) <> [].
Proof.
  split; [unfold GetEarthHeight; lia|].
  split; [reflexivity|]. discriminate.
Qed.

(** With a height that is not negative the enumerator reports one entry:
    the module at the milestone height, whatever that height is. *)
Lemma version_filter_reports_milestone (ModuleName : string) (H h : Z) :
  0 <= h ->
  reported (defaultVersionFilter ModuleName H h) = [(ModuleName, H)].
Proof.
  intros Hge. unfold defaultVersionFilter, reported.
  destruct (Z.ltb_spec h 0) as [Hlt|_]; [lia|]. reflexivity.
Qed.

(** C9. With upgrade height 0, [CommitFilter] and [PruneFilter] are the
    deny filter, which excludes the module's own store at every height
    and leaves it untouched; for a module of another name the deny, commit
    and prune filters (and so whatever [CommitFilter] and [PruneFilter]
    return) answer [false] at every height and leave the store
    untouched. *)
Theorem deny_at_zero_and_other_modules (ModuleName : string) :
  CommitFilter ModuleName 0 = defaultDenyFilter ModuleName /\
  PruneFilter ModuleName 0 = defaultDenyFilter ModuleName /\
  (forall (h : Z) (s : option CommitKVStore),
      defaultDenyFilter ModuleName ModuleName h s = (true, s) /\
      CommitFilter ModuleName 0 ModuleName h s = (true, s) /\
      PruneFilter ModuleName 0 ModuleName h s = (true, s)) /\
  (forall (module : string) (H h : Z) (s : option CommitKVStore),
      module <> ModuleName ->
      defaultDenyFilter ModuleName module h s = (false, s) /\
      defaultCommitFilter ModuleName H module h s = (false, s) /\
      defaultPruneFilter ModuleName H module h s = (false, s) /\
      CommitFilter ModuleName H module h s = (false, s) /\
      PruneFilter ModuleName H module h s = (false, s)).
Proof.
  split; [reflexivity|]. split; [reflexivity|]. split.
  - intros h s. unfold CommitFilter, PruneFilter, UpgradeHeight, GetEarthHeight.
    cbn [Z.eqb]. unfold defaultDenyFilter. rewrite String.eqb_refl. auto.
  - intros module H h s Hne.
    pose proof (deny_filter_other_module ModuleName module h s Hne) as Hd.
    pose proof (commit_filter_other_module ModuleName H module h s Hne) as Hc.
    pose proof (prune_filter_other_module ModuleName H module h s Hne) as Hp.
    split; [exact Hd|]. split; [exact Hc|]. split; [exact Hp|]. split.
    + unfold CommitFilter. destruct (UpgradeHeight H =? 0); assumption.
    + unfold PruneFilter. destruct (UpgradeHeight H =? 0); assumption.
Qed.

Lemma deny_at_zero_and_other_modules_witness :
  defaultCommitFilter "wasm" 100 "evm" 50 None = (false, None) /\
  CommitFilter "wasm" 0 "wasm" 50 None = (true, None).
Proof.
  destruct (deny_at_zero_and_other_modules "wasm") as (_ & _ & Hown & Hother).
  split.
  - apply (Hother "evm" 100 50 None). discriminate.
  - apply (Hown 50 None).
Defined.

(** X29. Invoked with a height that is not negative, the version filter
    yields an enumerator that runs its callback exactly once, on the
    module's name and the milestone height as it is, be it 0 or
    negative. *)
Theorem version_filter_runs_callback_once (ModuleName : string) (H h : Z) :
  0 <= h ->
  (forall (S : Type) (cb : string -> Z -> S -> S) (st : S),
      defaultVersionFilter ModuleName H h S cb st = cb ModuleName H st) /\
  reported (defaultVersionFilter ModuleName H h) = [(ModuleName, H)] /\
  length (reported (defaultVersionFilter ModuleName H h)) = 1%nat.
Proof.
  intros Hge.
  assert (Hfilter : defaultVersionFilter ModuleName H h
                    = fun S cb st => cb ModuleName H st).
  { unfold defaultVersionFilter, GetEarthHeight.
    destruct (Z.ltb_spec h 0) as [Hlt|_]; [lia|reflexivity]. }
  rewrite Hfilter. split; [reflexivity|]. split; reflexivity.
Qed.

Lemma version_filter_runs_callback_once_witness :
  reported (defaultVersionFilter "wasm" (-1) 7) = [("wasm", -1)].
Proof.
  apply (version_filter_runs_callback_once "wasm" (-1) 7). lia.
Defined.

(** *** The three filters against each other *)

(** X14. Away from the milestone height the commit filter and the prune
    filter are the same function: same answer, same store, for every
    module. *)
Theorem commit_and_prune_agree_off_milestone (ModuleName : string) (H : Z)
        (module : string) (h : Z) (s : option CommitKVStore) :
  h <> H ->
  defaultCommitFilter ModuleName H module h s
  = defaultPruneFilter ModuleName H module h s.
Proof.
  intros Hne. unfold defaultCommitFilter, defaultPruneFilter, GetEarthHeight.
  destruct (negb (String.eqb module ModuleName)); [reflexivity|].
  destruct (Z.eqb_spec h H) as [Heq|_]; [contradiction|]. reflexivity.
Qed.

Lemma commit_and_prune_agree_off_milestone_witness :
  defaultCommitFilter "wasm" 100 "wasm" 42 (Some store0)
  = defaultPruneFilter "wasm" 100 "wasm" 42 (Some store0).
Proof.
  apply (commit_and_prune_agree_off_milestone "wasm" 100 "wasm" 42 (Some store0)).
  lia.
Defined.

(** X15. The deny filter and the prune filter never write to the store
    they are given; the commit filter writes in one case only, for its own
    module at the milestone height, and then only the version marker. *)
Theorem only_commit_at_milestone_writes (ModuleName : string) (H : Z)
        (module : string) (h : Z) (s : option CommitKVStore) :
  snd (defaultDenyFilter ModuleName module h s) = s /\
  snd (defaultPruneFilter ModuleName H module h s) = s /\
  snd (defaultCommitFilter ModuleName H module h s)
  = (if String.eqb module ModuleName && (h =? H)
     then SetUpgradeVersion H <$> s else s) /\
  kvData <$> snd (defaultCommitFilter ModuleName H module h s) = kvData <$> s.
Proof.
  unfold defaultDenyFilter, defaultPruneFilter, defaultCommitFilter, GetEarthHeight.
  split; [reflexivity|]. split; [|split].
  - destruct (String.eqb module ModuleName); cbn [negb]; [|reflexivity].
    destruct (HigherThanEarth H h); reflexivity.
  - destruct (String.eqb module ModuleName); cbn [negb andb]; [|reflexivity].
    destruct (Z.eqb_spec h H) as [->|_]; [destruct s; reflexivity|].
    destruct (HigherThanEarth H h); reflexivity.
  - destruct (String.eqb module ModuleName); cbn [negb]; [|reflexivity].
    destruct (h =? H); [destruct s; reflexivity|].
    destruct (HigherThanEarth H h); reflexivity.
Qed.

(** *** Reading the configuration *)

Section Config.
Context {env : ConfigEnv}.

Local Ltac read_cases :=
  repeat match goal with
  | |- context [match ?viper ?flag with _ => _ end] =>
      lazymatch type of viper with
      | Viper => destruct (viper flag) as [[?|?|?]|] eqn:?
      end
  | |- context [ToUint32E ?v] => destruct (ToUint32E v) as [? [?|]] eqn:?
  | |- context [ToUint64E ?v] => destruct (ToUint64E v) as [? [?|]] eqn:?
  | |- context [ToBoolE ?v] => destruct (ToBoolE v) as [? [?|]] eqn:?
  | |- context [negb (String.eqb ?a ?b)] => destruct (String.eqb_spec a b)
  end; cbn.

(** X16. A field whose flag is not set keeps its default, whether the
    other flags parse or not; the simulation gas limit also keeps it when
    its flag holds anything but a non-empty string.  With no flag set the
    result is the default configuration and no error. *)
Theorem ReadWasmConfig_unset_keeps_default (viper : Viper) :
  let cfg := fst (ReadWasmConfig viper) in
  (viper flagWasmMemoryCacheSize = None ->
   MemoryCacheSize cfg = MemoryCacheSize DefaultWasmConfig) /\
  (viper flagWasmQueryGasLimit = None ->
   SmartQueryGasLimit cfg = SmartQueryGasLimit DefaultWasmConfig) /\
  ((forall raw, viper flagWasmSimulationGasLimit = Some (CvString raw) -> raw = "") ->
   SimulationGasLimit cfg = SimulationGasLimit DefaultWasmConfig) /\
  (viper FlagTrace = None ->
   ContractDebugMode cfg = ContractDebugMode DefaultWasmConfig) /\
  (viper flagWasmMemoryCacheSize = None ->
   viper flagWasmQueryGasLimit = None ->
   viper flagWasmSimulationGasLimit = None ->
   viper FlagTrace = None ->
   ReadWasmConfig viper = (DefaultWasmConfig, None)).
Proof.
  cbv zeta. unfold ReadWasmConfig.
  split; [|split; [|split; [|split]]].
  - intros ->. read_cases; reflexivity.
  - intros Hq. read_cases; try reflexivity; congruence.
  - intros Hsim. read_cases; try reflexivity;
      exfalso;
      match goal with
      | Hraw : ?raw <> "" |- _ => apply Hraw, Hsim; reflexivity
      end.
  - intros Ht. read_cases; try reflexivity; congruence.
  - intros -> -> -> ->. reflexivity.
Qed.

(** X17. The first cast that fails ends the reading with its error.  A
    failing memory-cache flag gives the default configuration with the
    cast's value in that field, whatever the later flags hold; a failing
    simulation gas limit, with the two flags before it unset, gives the
    default configuration unchanged, and the trace flag is not read. *)
Theorem ReadWasmConfig_first_error (viper : Viper) :
  (forall v x err,
      viper flagWasmMemoryCacheSize = Some v ->
      ToUint32E v = (x, Some err) ->
      ReadWasmConfig viper = (set_MemoryCacheSize x DefaultWasmConfig, Some err)) /\
  (forall raw x err,
      viper flagWasmMemoryCacheSize = None ->
      viper flagWasmQueryGasLimit = None ->
      viper flagWasmSimulationGasLimit = Some (CvString raw) ->
      raw <> "" ->
      ToUint64E (CvString raw) = (x, Some err) ->
      ReadWasmConfig viper = (DefaultWasmConfig, Some err)).
Proof.
  unfold ReadWasmConfig. split.
  - intros v x err -> ->. reflexivity.
  - intros raw x err -> -> -> Hraw ->.
    destruct (String.eqb_spec raw "") as [Heq|_]; [contradiction|]. reflexivity.
Qed.

(** X18. When all four flags are set and parse, the configuration holds
    the four parsed values and there is no error. *)
Theorem ReadWasmConfig_all_set (viper : Viper) (v1 v2 v4 : ConfigValue)
        (raw : string) (mem query limit : Z) (debug : bool) :
  viper flagWasmMemoryCacheSize = Some v1 -> ToUint32E v1 = (mem, None) ->
  viper flagWasmQueryGasLimit = Some v2 -> ToUint64E v2 = (query, None) ->
  viper flagWasmSimulationGasLimit = Some (CvString raw) -> raw <> "" ->
  ToUint64E (CvString raw) = (limit, None) ->
  viper FlagTrace = Some v4 -> ToBoolE v4 = (debug, None) ->
  ReadWasmConfig viper
  = ({| SimulationGasLimit := Some limit; SmartQueryGasLimit := query;
        MemoryCacheSize := mem; ContractDebugMode := debug |}, None).
Proof.
  intros H1 C1 H2 C2 H3 Hraw C3 H4 C4. unfold ReadWasmConfig.
  rewrite H1, C1, H2, C2, H3.
  destruct (String.eqb_spec raw "") as [Heq|_]; [contradiction|].
  cbn [negb]. rewrite C3, H4, C4. reflexivity.
Qed.

(** *** Reading it once *)

(** X19. The configuration is read once: after a call of [WasmConfig]
    that returns on fresh variables, every later call of [WasmConfig] and
    [WasmDir] returns what the first reading gave and leaves the variables
    alone, whatever the settings are by then. *)
Theorem WasmConfig_read_once (viper viper' : Viper) (g g' : Globals)
        (cfg : types_WasmConfig) :
  once_done g = false ->
  WasmConfig viper g = (inl cfg, g') ->
  ReadWasmConfig viper = (cfg, None) /\
  WasmConfig viper' g' = (inl cfg, g') /\
  WasmDir viper' g'
  = (inl (filepath_Join (viper_GetString viper HomeFlag) "wasm"), g').
Proof.
  intros Hfresh. unfold WasmConfig, WasmDir, once_Do, Init. rewrite Hfresh.
  destruct (ReadWasmConfig viper) as [c [err|]]; [discriminate|].
  cbn. intros [= <- <-]. cbn. auto.
Qed.

(** X20. When the first reading fails, the call panics with the error in
    the message, and the [Once] still counts as done: every later call of
    [WasmConfig] and [WasmDir] returns the variables' old values without
    reading anything. *)
Theorem WasmConfig_after_failed_Init (viper viper' : Viper) (g : Globals)
        (cfg : types_WasmConfig) (err : string) :
  once_done g = false ->
  ReadWasmConfig viper = (cfg, Some err) ->
  let g' := {| once_done := true; gWasmConfig := gWasmConfig g;
               gWasmDir := gWasmDir g |} in
  WasmConfig viper g = (inr ("error while reading wasm config: " ++ err)%string, g') /\
  WasmConfig viper' g' = (inl (gWasmConfig g), g') /\
  WasmDir viper' g' = (inl (gWasmDir g), g').
Proof.
  intros Hfresh Hread. cbv zeta.
  unfold WasmConfig, WasmDir, once_Do, Init. rewrite Hfresh, Hread.
  cbn. auto.
Qed.

End Config.

Lemma ReadWasmConfig_unset_keeps_default_witness :
  ReadWasmConfig (settings []) = (DefaultWasmConfig, None) /\
  SimulationGasLimit
    (fst (ReadWasmConfig (settings [("wasm.simulation_gas_limit", CvInt 5)])))
  = None.
Proof.
  destruct (ReadWasmConfig_unset_keeps_default (settings [])) as (_ & _ & _ & _ & Hall).
  destruct (ReadWasmConfig_unset_keeps_default
              (settings [("wasm.simulation_gas_limit", CvInt 5)]))
    as (_ & _ & Hsim & _).
  split.
  - apply Hall; reflexivity.
  - apply Hsim. intros raw. vm_compute. discriminate.
Defined.

Lemma ReadWasmConfig_first_error_witness :
  ReadWasmConfig (settings [("wasm.memory_cache_size", CvString "lots");
                            ("trace", CvBool true)])
  = (set_MemoryCacheSize 0 DefaultWasmConfig, Some "unable to cast string") /\
  ReadWasmConfig (settings [("wasm.simulation_gas_limit", CvString "12x");
                            ("trace", CvBool true)])
  = (DefaultWasmConfig, Some "unable to cast string").
Proof.
  split.
  - apply (proj1 (ReadWasmConfig_first_error _) (CvString "lots") 0); reflexivity.
  - apply (proj2 (ReadWasmConfig_first_error _) "12x" 0);
      try reflexivity. discriminate.
Defined.

Lemma ReadWasmConfig_all_set_witness :
  ReadWasmConfig (settings [("wasm.memory_cache_size", CvInt 256);
                            ("wasm.query_gas_limit", CvString "5000");
                            ("wasm.simulation_gas_limit", CvString "700");
                            ("trace", CvBool true)])
  = ({| SimulationGasLimit := Some 700; SmartQueryGasLimit := 5000;
        MemoryCacheSize := 256; ContractDebugMode := true |}, None).
Proof.
  apply (ReadWasmConfig_all_set _ (CvInt 256) (CvString "5000") (CvBool true) "700");
    try reflexivity. discriminate.
Defined.

Lemma WasmConfig_read_once_witness :
  WasmConfig (settings [("trace", CvBool true)])
    (snd (WasmConfig (settings [("home", CvString "/data")]) initialGlobals))
  = (inl DefaultWasmConfig,
     snd (WasmConfig (settings [("home", CvString "/data")]) initialGlobals)) /\
  fst (WasmDir (settings [])
         (snd (WasmConfig (settings [("home", CvString "/data")]) initialGlobals)))
  = inl "/data/wasm".
Proof.
  destruct (WasmConfig_read_once (settings [("home", CvString "/data")])
              (settings [("trace", CvBool true)]) initialGlobals
              (snd (WasmConfig (settings [("home", CvString "/data")]) initialGlobals))
              DefaultWasmConfig) as (_ & Hcfg & _); [reflexivity|reflexivity|].
  destruct (WasmConfig_read_once (settings [("home", CvString "/data")])
              (settings []) initialGlobals
              (snd (WasmConfig (settings [("home", CvString "/data")]) initialGlobals))
              DefaultWasmConfig) as (_ & _ & Hdir); [reflexivity|reflexivity|].
  split; [exact Hcfg|]. rewrite Hdir. reflexivity.
Defined.

Lemma WasmConfig_after_failed_Init_witness :
  fst (WasmConfig (settings [("trace", CvString "maybe")]) initialGlobals)
  = inr "error while reading wasm config: invalid syntax" /\
  fst (WasmConfig (settings [("trace", CvBool true)])
         (snd (WasmConfig (settings [("trace", CvString "maybe")]) initialGlobals)))
  = inl (gWasmConfig initialGlobals).
Proof.
  destruct (WasmConfig_after_failed_Init (settings [("trace", CvString "maybe")])
              (settings [("trace", CvBool true)]) initialGlobals
              (set_ContractDebugMode false DefaultWasmConfig) "invalid syntax")
    as (Hpanic & Hlater & _); [reflexivity|reflexivity|].
  split.
  - rewrite Hpanic. reflexivity.
  - rewrite Hpanic. cbn [snd]. rewrite Hlater. reflexivity.
Defined.

End WasmFacts.

(* ===================================================================== *)
(** ** Theorems: the bridge keeper *)
(* ===================================================================== *)

Module BridgeFacts.
Import Milestone VMBridge.

Section Keeper.
Context {evmTypes : EvmTypes} {collab : Collaborators}.

(** *** The gate of [Handle] *)

Lemma Handle_not_higher (H : Z) (ctx : Context) (contract : Address)
      (data : Bytes) (s : Store) :
  BlockHeight ctx < H ->
  Handle H ctx contract data s
  = (Returned (Some (ErrUnknownRequestWrap (not_supported_msg (BlockHeight ctx)))),
     s, []).
Proof.
  intros Hlt. unfold Handle, HigherThanEarth.
  destruct (Z.leb_spec H (BlockHeight ctx)) as [Hle|_]; [lia|]. reflexivity.
Qed.

Lemma Handle_disabled (H : Z) (ctx : Context) (contract : Address)
      (data : Bytes) (s : Store) :
  H <= BlockHeight ctx ->
  VmbridgeEnable (wasmParams s) = false ->
  Handle H ctx contract data s
  = (Returned (Some ErrVMBridgeEnable), s, [EvWasmGetParams]).
Proof.
  intros Hle Hoff. unfold Handle, HigherThanEarth.
  destruct (Z.leb_spec H (BlockHeight ctx)) as [_|Hlt]; [|lia].
  cbn [negb]. unfold bind, wasmKeeper_GetParams. rewrite Hoff. reflexivity.
Qed.

Lemma Handle_open (H : Z) (ctx : Context) (contract : Address)
      (data : Bytes) (s : Store) :
  H <= BlockHeight ctx ->
  VmbridgeEnable (wasmParams s) = true ->
  Handle H ctx contract data s
  = match Unpack data with
    | inr err =>
        (Returned None, s,
         [EvWasmGetParams;
          EvLogError "log signature matches but failed to decode" err])
    | inl unpacked =>
        match assert_string unpacked 0, assert_string unpacked 1,
              assert_bigInt unpacked 2 with
        | Returned wasmAddr, Returned recipient, Returned amountBig =>
            match NewIntFromBigInt amountBig with
            | Returned amount =>
                let '(err, s') := SendToWasm ctx contract wasmAddr recipient amount s in
                (Returned err, s',
                 [EvWasmGetParams; EvSendToWasm contract wasmAddr recipient amount])
            | Panicked => (Panicked, s, [EvWasmGetParams])
            end
        | _, _, _ => (Panicked, s, [EvWasmGetParams])
        end
    end.
Proof.
  intros Hle Hon. unfold Handle, HigherThanEarth.
  destruct (Z.leb_spec H (BlockHeight ctx)) as [_|Hlt]; [|lia].
  cbn [negb]. unfold bind, wasmKeeper_GetParams. rewrite Hon. cbn [negb].
  destruct (Unpack data) as [unpacked|err]; [|reflexivity].
  destruct (assert_string unpacked 0) as [wasmAddr|]; [|reflexivity].
  destruct (assert_string unpacked 1) as [recipient|]; [|reflexivity].
  destruct (assert_bigInt unpacked 2) as [amountBig|]; [|reflexivity].
  destruct (NewIntFromBigInt amountBig) as [amount|]; [|reflexivity].
  unfold Keeper_SendToWasm, ret.
  destruct (SendToWasm ctx contract wasmAddr recipient amount s) as [err s'].
  reflexivity.
Qed.

(** An amount of at most [maxBitLen] bits is taken as it is. *)
Lemma NewIntFromBigInt_in_range (i : Z) :
  Z.abs i < 2 ^ maxBitLen -> NewIntFromBigInt i = Returned i.
Proof.
  intros Hi. unfold NewIntFromBigInt.
  destruct (Z.leb_spec (2 ^ maxBitLen) (Z.abs i)) as [Hge|_]; [lia|reflexivity].
Qed.

Lemma NewIntFromBigInt_out_of_bound (i : Z) :
  2 ^ maxBitLen <= Z.abs i -> NewIntFromBigInt i = Panicked.
Proof.
  intros Hi. unfold NewIntFromBigInt.
  destruct (Z.leb_spec (2 ^ maxBitLen) (Z.abs i)) as [_|Hlt]; [reflexivity|lia].
Qed.

(** [Handle] reaches [SendToWasm] only past both checks. *)
Lemma Handle_calls_only_past_gate (H : Z) (ctx : Context) (contract : Address)
      (data : Bytes) (s : Store) (ev : Event) :
  In ev (trace_of (Handle H ctx contract data s)) ->
  is_effect ev = true ->
  H <= BlockHeight ctx /\ VmbridgeEnable (wasmParams s) = true.
Proof.
  intros Hin Heff.
  destruct (Z.lt_ge_cases (BlockHeight ctx) H) as [Hlt|Hle].
  { rewrite Handle_not_higher in Hin by exact Hlt. destruct Hin. }
  destruct (VmbridgeEnable (wasmParams s)) eqn:Hon; [split; [exact Hle|reflexivity]|].
  rewrite Handle_disabled in Hin by assumption.
  cbn in Hin. destruct Hin as [<-|[]]. discriminate.
Qed.

(** *** [CallEvm], case by case *)

Lemma CallEvm_no_config (ctx : Context) (to : option Address) (value : Z)
      (data : Bytes) (s : Store) :
  chainConfig s = None ->
  CallEvm ctx to value data s
  = ((None, None, Some ErrChainConfigNotFound), s,
     [EvCallEvm to value data; EvGetChainConfig]).
Proof.
  intros Hcfg. unfold CallEvm, bind, entered, evmKeeper_GetChainConfig.
  rewrite Hcfg. reflexivity.
Qed.

Lemma CallEvm_bad_chain_id (ctx : Context) (to : option Address) (value : Z)
      (data : Bytes) (s : Store) (config : ChainConfig) (err : Error) :
  chainConfig s = Some config ->
  ParseChainID (ChainID ctx) = inr err ->
  CallEvm ctx to value data s
  = ((None, None, Some err), s, [EvCallEvm to value data; EvGetChainConfig]).
Proof.
  intros Hcfg Hid. unfold CallEvm, bind, entered, evmKeeper_GetChainConfig.
  rewrite Hcfg, Hid. reflexivity.
Qed.

Lemma CallEvm_transition (ctx : Context) (to : option Address) (value : Z)
      (data : Bytes) (s : Store) (config : ChainConfig) (chainIDEpoch : Z) :
  chainConfig s = Some config ->
  ParseChainID (ChainID ctx) = inl chainIDEpoch ->
  let st := callTransition ctx to value data chainIDEpoch s in
  let out := TransitionDb ctx config st s in
  CallEvm ctx to value data s
  = match transitionErr out with
    | Some err =>
        ((None, None, Some err), s,
         (callPrelude ctx to value data s ++ [EvTransitionDb st])%list)
    | None =>
        let acc' := SetSequence (uint64_add (GetSequence (callerAccount s)) 1)
                                (callerAccount s) in
        ((executionResult out, resultData out, None),
         putAccount acc' (Commit false (csdbAfter out) s),
         (callPrelude ctx to value data s
          ++ [EvTransitionDb st; EvCommit false; EvSetAccount acc'])%list)
    end.
Proof.
  intros Hcfg Hid. cbv zeta.
  unfold CallEvm, bind, entered, evmKeeper_GetChainConfig,
    accountKeeper_GetAccount, accountKeeper_NewAccountWithAddress,
    evmKeeper_GetParams, evmtypes_CreateEmptyCommitStateDB, st_TransitionDb,
    Csdb_Commit, accountKeeper_SetAccount, ret.
  rewrite Hcfg, Hid.
  unfold callTransition, callPrelude, callerAccount, callGasLimit, SystemSequence.
  destruct (accounts s !! IbcEvmModuleETHAddr) as [seq|];
    destruct (GasMeterLimit ctx =? InfiniteGasMeterLimit);
    cbn [fmap option_fmap option_map GetSequence acc_sequence];
    match goal with
    | |- context [transitionErr ?o] => destruct (transitionErr o)
    end; reflexivity.
Qed.

(** Whatever [CallEvm] returns with an error, it returns on the store it
    was called on, and has neither committed nor stored an account. *)
Lemma CallEvm_error_run (ctx : Context) (to : option Address) (value : Z)
      (data : Bytes) (s : Store) (err : Error) :
  snd (result_of (CallEvm ctx to value data s)) = Some err ->
  result_of (CallEvm ctx to value data s) = (None, None, Some err) /\
  store_of (CallEvm ctx to value data s) = s /\
  (forall ev, In ev (trace_of (CallEvm ctx to value data s)) ->
              writes_state ev = false).
Proof.
  destruct (chainConfig s) as [config|] eqn:Hcfg.
  2:{ rewrite CallEvm_no_config by exact Hcfg. cbn.
      intros [= <-]. split; [reflexivity|]. split; [reflexivity|].
      intros ev [<-|[<-|[]]]; reflexivity. }
  destruct (ParseChainID (ChainID ctx)) as [chainIDEpoch|perr] eqn:Hid.
  2:{ rewrite (CallEvm_bad_chain_id _ _ _ _ _ _ _ Hcfg Hid). cbn.
      intros [= <-]. split; [reflexivity|]. split; [reflexivity|].
      intros ev [<-|[<-|[]]]; reflexivity. }
  rewrite (CallEvm_transition _ _ _ _ _ _ _ Hcfg Hid). cbv zeta.
  destruct (transitionErr _) as [terr|]; cbn; [|discriminate].
  intros [= <-]. split; [reflexivity|]. split; [reflexivity|].
  intros ev Hin. unfold callPrelude in Hin.
  destruct (accounts s !! IbcEvmModuleETHAddr);
    destruct (GasMeterLimit ctx =? InfiniteGasMeterLimit); cbn in Hin;
    repeat (destruct Hin as [<-|Hin]; [reflexivity|]);
    destruct Hin.
Qed.

(** A run of [CallEvm] without error went through the state transition,
    the commit and the account update, in this order. *)
Lemma CallEvm_success_run (ctx : Context) (to : option Address) (value : Z)
      (data : Bytes) (s : Store) :
  snd (result_of (CallEvm ctx to value data s)) = None ->
  exists config chainIDEpoch,
    chainConfig s = Some config /\
    ParseChainID (ChainID ctx) = inl chainIDEpoch /\
    let st := callTransition ctx to value data chainIDEpoch s in
    let out := TransitionDb ctx config st s in
    let acc' := SetSequence (uint64_add (GetSequence (callerAccount s)) 1)
                            (callerAccount s) in
    transitionErr out = None /\
    CallEvm ctx to value data s
    = ((executionResult out, resultData out, None),
       putAccount acc' (Commit false (csdbAfter out) s),
       (callPrelude ctx to value data s
        ++ [EvTransitionDb st; EvCommit false; EvSetAccount acc'])%list).
Proof.
  destruct (chainConfig s) as [config|] eqn:Hcfg.
  2:{ rewrite CallEvm_no_config by exact Hcfg. cbn. discriminate. }
  destruct (ParseChainID (ChainID ctx)) as [chainIDEpoch|perr] eqn:Hid.
  2:{ rewrite (CallEvm_bad_chain_id _ _ _ _ _ _ _ Hcfg Hid). cbn. discriminate. }
  intros Hok. exists config, chainIDEpoch.
  split; [reflexivity|]. split; [reflexivity|]. cbv zeta.
  rewrite (CallEvm_transition _ _ _ _ _ _ _ Hcfg Hid) in Hok |- *. cbv zeta in Hok |- *.
  destruct (transitionErr _) as [terr|]; [cbn in Hok; discriminate|].
  split; reflexivity.
Qed.

Lemma SystemSequence_putAccount (acc : Account) (s : Store) :
  acc_address acc = IbcEvmModuleETHAddr ->
  SystemSequence (putAccount acc s) = GetSequence acc.
Proof.
  intros Haddr. unfold SystemSequence, putAccount. cbn [accounts].
  rewrite Haddr, lookup_insert_eq. reflexivity.
Qed.

Lemma CallEvm_success_sequence (ctx : Context) (to : option Address) (value : Z)
      (data : Bytes) (s : Store) :
  snd (result_of (CallEvm ctx to value data s)) = None ->
  SystemSequence (store_of (CallEvm ctx to value data s))
  = uint64_add (SystemSequence s) 1.
Proof.
  intros Hok.
  destruct (CallEvm_success_run _ _ _ _ _ Hok)
    as (config & chainIDEpoch & _ & _ & _ & Hrun).
  rewrite Hrun. unfold store_of. cbn [fst snd].
  rewrite SystemSequence_putAccount; reflexivity.
Qed.

(** Every run of [CallEvm] is marked first in the trace. *)
Lemma CallEvm_trace_head (ctx : Context) (to : option Address) (value : Z)
      (data : Bytes) (s : Store) :
  exists rest,
    trace_of (CallEvm ctx to value data s) = EvCallEvm to value data :: rest.
Proof.
  destruct (chainConfig s) as [config|] eqn:Hcfg.
  2:{ rewrite CallEvm_no_config by exact Hcfg. eexists. reflexivity. }
  destruct (ParseChainID (ChainID ctx)) as [chainIDEpoch|perr] eqn:Hid.
  2:{ rewrite (CallEvm_bad_chain_id _ _ _ _ _ _ _ Hcfg Hid). eexists. reflexivity. }
  rewrite (CallEvm_transition _ _ _ _ _ _ _ Hcfg Hid). cbv zeta.
  destruct (transitionErr _); unfold callPrelude; eexists; reflexivity.
Qed.

(** *** [SendToEvm] up to its call of [CallEvm] *)

Lemma SendToEvm_success_run (ctx : Context) (caller contract recipient : string)
      (amount : Z) (s : Store) (b : bool) :
  result_of (SendToEvm ctx caller contract recipient amount s) = Returned (b, None) ->
  exists to input,
    store_of (SendToEvm ctx caller contract recipient amount s)
      = store_of (CallEvm ctx (Some to) 0 input s) /\
    trace_of (SendToEvm ctx caller contract recipient amount s)
      = trace_of (CallEvm ctx (Some to) 0 input s) /\
    snd (result_of (CallEvm ctx (Some to) 0 input s)) = None.
Proof.
  unfold SendToEvm.
  destruct (IsETHAddress recipient); [|discriminate].
  destruct (IsETHAddress contract); [|discriminate].
  cbn [negb].
  destruct (AccAddressFromBech32 contract) as [contractAccAddr|e1]; [|discriminate].
  destruct (AccAddressFromBech32 recipient) as [recipientAccAddr|e2]; [|discriminate].
  destruct (GetMintERC20Input _ _ _) as [input|e3]; [|discriminate].
  intros Hok. exists (BytesToAddress contractAccAddr), input.
  unfold bind in Hok |- *.
  destruct (CallEvm ctx (Some (BytesToAddress contractAccAddr)) 0 input s)
    as [[[[er rd] err] s1] t1].
  unfold store_of, trace_of, result_of in Hok |- *. cbn [fst snd] in Hok |- *.
  destruct err as [e|]; [discriminate Hok|].
  destruct rd as [res|]; [|discriminate Hok].
  cbn. split; [reflexivity|]. split; [apply app_nil_r|reflexivity].
Qed.

(** *** The claims on [Handle] *)

Lemma NewIntFromBigInt_500 : NewIntFromBigInt 500 = Returned 500.
Proof. apply NewIntFromBigInt_in_range. unfold maxBitLen. cbn. lia. Qed.

(** C1. At the activation height itself, with the bridge enabled, a log
    that decodes to [(wasmAddr, recipient, 500)] makes [Handle] call
    [SendToWasm] once, with the emitting contract as caller and exactly
    that triple, the amount being the integer 500; [Handle] returns what
    [SendToWasm] returns and leaves the store [SendToWasm] leaves, so it
    returns no error when [SendToWasm] succeeds. *)
Theorem Handle_sends_decoded_triple (H : Z) (ctx : Context) (contract : Address)
        (data : Bytes) (s : Store) (wasmAddr recipient : string) :
  BlockHeight ctx = H ->
  VmbridgeEnable (wasmParams s) = true ->
  Unpack data = inl [AbiString wasmAddr; AbiString recipient; AbiBigInt 500] ->
  let sent := SendToWasm ctx contract wasmAddr recipient 500 s in
  Handle H ctx contract data s
  = (Returned (fst sent), snd sent,
     [EvWasmGetParams; EvSendToWasm contract wasmAddr recipient 500]) /\
  (fst sent = None ->
   result_of (Handle H ctx contract data s) = Returned None).
Proof.
  intros Hat Hon Hdec. cbv zeta.
  assert (Hle : H <= BlockHeight ctx) by lia.
  rewrite (Handle_open H ctx contract data s Hle Hon), Hdec.
  cbn [assert_string assert_bigInt lookup list_lookup].
  rewrite NewIntFromBigInt_500.
  destruct (SendToWasm ctx contract wasmAddr recipient 500 s) as [err s'].
  cbn. split; [reflexivity|]. intros ->. reflexivity.
Qed.

(** C2 (as amended). At every height strictly below the activation
    height, and at every height where the enable flag is off, [Handle]
    returns a NotSupportedError, on the store it was called on, having
    made no call but (past the height check) the read of the parameters;
    and whenever [Handle] calls [SendToWasm], the height is at or above
    the activation height and the flag is on. *)
Theorem Handle_gate (H : Z) (ctx : Context) (contract : Address)
        (data : Bytes) (s : Store) :
  let r := Handle H ctx contract data s in
  (BlockHeight ctx < H \/ VmbridgeEnable (wasmParams s) = false ->
   (exists e, result_of r = Returned (Some e) /\ is_NotSupportedError e = true) /\
   store_of r = s /\
   (trace_of r = [] \/ trace_of r = [EvWasmGetParams]) /\
   (BlockHeight ctx < H -> trace_of r = [])) /\
  (forall ev, In ev (trace_of r) -> is_effect ev = true ->
              H <= BlockHeight ctx /\ VmbridgeEnable (wasmParams s) = true).
Proof.
  cbv zeta. split.
  - intros Hclosed.
    destruct (Z.lt_ge_cases (BlockHeight ctx) H) as [Hlt|Hle].
    + rewrite (Handle_not_higher H ctx contract data s Hlt).
      split; [eexists; split; reflexivity|].
      split; [reflexivity|]. split; [left; reflexivity|]. reflexivity.
    + destruct Hclosed as [Hlt|Hoff]; [lia|].
      rewrite (Handle_disabled H ctx contract data s Hle Hoff).
      split; [eexists; split; reflexivity|].
      split; [reflexivity|]. split; [right; reflexivity|]. lia.
  - intros ev. apply Handle_calls_only_past_gate.
Qed.

(** C3 (as amended). At a height strictly above the activation height,
    with the bridge enabled, a log whose payload does not decode makes
    [Handle] log the failure and return nil: the store is left as it was
    and nothing but the log call follows the read of the parameters. *)
Theorem Handle_swallows_decode_failure (H : Z) (ctx : Context)
        (contract : Address) (data : Bytes) (s : Store) (err : Error) :
  H < BlockHeight ctx ->
  VmbridgeEnable (wasmParams s) = true ->
  Unpack data = inr err ->
  Handle H ctx contract data s
  = (Returned None, s,
     [EvWasmGetParams;
      EvLogError "log signature matches but failed to decode" err]).
Proof.
  intros Hlt Hon Hdec.
  rewrite (Handle_open H ctx contract data s (Z.lt_le_incl _ _ Hlt) Hon), Hdec.
  reflexivity.
Qed.

(** *** The claims on [SendToEvm] and [CallEvm] *)

(** C4. When the recipient or the contract string is not an EVM address,
    [SendToEvm] returns [false] with the validation error
    [ErrIsNotETHAddr], on the store it was called on and with an empty
    trace: no keeper has been called, and [CallEvm] in particular has
    not. *)
Theorem SendToEvm_rejects_malformed_address (ctx : Context)
        (caller contract recipient : string) (amount : Z) (s : Store) :
  IsETHAddress recipient = false \/ IsETHAddress contract = false ->
  let r := SendToEvm ctx caller contract recipient amount s in
  (exists e, result_of r = Returned (false, Some e) /\ is_ValidationError e = true) /\
  store_of r = s /\
  trace_of r = [] /\
  (forall to value data, ~ In (EvCallEvm to value data) (trace_of r)).
Proof.
  intros Hbad. cbv zeta.
  assert (Hrun : SendToEvm ctx caller contract recipient amount s
                 = (Returned (false, Some ErrIsNotETHAddr), s, [])).
  { unfold SendToEvm.
    destruct (IsETHAddress recipient); [|reflexivity].
    destruct (IsETHAddress contract); [|reflexivity].
    destruct Hbad; discriminate. }
  rewrite Hrun. split; [eexists; split; reflexivity|].
  split; [reflexivity|]. split; [reflexivity|].
  intros to value data [].
Qed.

(** The later validation steps fail as early: an address that does not
    parse, or a payload that cannot be built, is answered with that error
    before [CallEvm] is reached. *)
Lemma SendToEvm_validation_precedes_call (ctx : Context)
      (caller contract recipient : string) (amount : Z) (s : Store) :
  (forall to value data,
      ~ In (EvCallEvm to value data)
           (trace_of (SendToEvm ctx caller contract recipient amount s))) ->
  exists err,
    SendToEvm ctx caller contract recipient amount s
    = (Returned (false, Some err), s, []).
Proof.
  unfold SendToEvm.
  destruct (IsETHAddress recipient); [|eexists; reflexivity].
  destruct (IsETHAddress contract); [|eexists; reflexivity].
  cbn [negb].
  destruct (AccAddressFromBech32 contract) as [contractAccAddr|e1];
    [|eexists; reflexivity].
  destruct (AccAddressFromBech32 recipient) as [recipientAccAddr|e2];
    [|eexists; reflexivity].
  destruct (GetMintERC20Input _ _ _) as [input|e3]; [|eexists; reflexivity].
  intros Hnever. exfalso.
  apply (Hnever (Some (BytesToAddress contractAccAddr)) 0 input).
  destruct (CallEvm_trace_head ctx (Some (BytesToAddress contractAccAddr)) 0 input s)
    as [rest Hhead].
  unfold bind.
  destruct (CallEvm ctx (Some (BytesToAddress contractAccAddr)) 0 input s)
    as [[[[er rd] err] s1] t1].
  unfold trace_of in Hhead. cbn [snd] in Hhead. subst t1.
  destruct err as [e|]; [|destruct rd as [res|]]; cbn; left; reflexivity.
Qed.

(** C5. Each failing step of [CallEvm] (no chain configuration, a chain
    ID that does not parse, an error of the state transition) makes it
    return that error; and whenever [CallEvm] returns an error, the store
    is the one it was called on: the sequence number of the SystemAccount
    and the persisted contract code are unchanged, and the trace has no
    commit and no account write. *)
Theorem CallEvm_failure_leaves_state (ctx : Context) (to : option Address)
        (value : Z) (data : Bytes) (s : Store) :
  let r := CallEvm ctx to value data s in
  (chainConfig s = None ->
   result_of r = (None, None, Some ErrChainConfigNotFound)) /\
  (forall config err,
      chainConfig s = Some config ->
      ParseChainID (ChainID ctx) = inr err ->
      result_of r = (None, None, Some err)) /\
  (forall config chainIDEpoch err,
      chainConfig s = Some config ->
      ParseChainID (ChainID ctx) = inl chainIDEpoch ->
      transitionErr (TransitionDb ctx config
                       (callTransition ctx to value data chainIDEpoch s) s)
        = Some err ->
      result_of r = (None, None, Some err)) /\
  (forall err,
      snd (result_of r) = Some err ->
      store_of r = s /\
      SystemSequence (store_of r) = SystemSequence s /\
      contractCode (store_of r) = contractCode s /\
      (forall ev, In ev (trace_of r) -> writes_state ev = false)).
Proof.
  cbv zeta. split; [|split; [|split]].
  - intros Hcfg. rewrite (CallEvm_no_config _ _ _ _ _ Hcfg). reflexivity.
  - intros config err Hcfg Hid.
    rewrite (CallEvm_bad_chain_id _ _ _ _ _ _ _ Hcfg Hid). reflexivity.
  - intros config chainIDEpoch err Hcfg Hid Herr.
    rewrite (CallEvm_transition _ _ _ _ _ _ _ Hcfg Hid). cbv zeta.
    rewrite Herr. reflexivity.
  - intros err Herr.
    destruct (CallEvm_error_run _ _ _ _ _ _ Herr) as (_ & Hstore & Htrace).
    rewrite Hstore. auto.
Qed.

(** C6 (as amended). After a call of [CallEvm] that returns no error (and
    so after a call of [SendToEvm] that returns no error), the sequence
    number of the SystemAccount is the one read at the start plus 1 in
    [uint64] arithmetic: exactly one more whenever the sequence read is
    below [2^64 - 1].  The account with that sequence is what the store
    holds at the system address, and it was written last, directly after
    the commit of the working state, with no write before the commit. *)
Theorem CallEvm_success_advances_sequence (s : Store) :
  (forall ctx to value data,
      let r := CallEvm ctx to value data s in
      snd (result_of r) = None ->
      SystemSequence (store_of r) = uint64_add (SystemSequence s) 1 /\
      (0 <= SystemSequence s < uint64_modulus - 1 ->
       SystemSequence (store_of r) = SystemSequence s + 1) /\
      exists pre st acc',
        trace_of r = (pre ++ [EvTransitionDb st; EvCommit false; EvSetAccount acc'])%list /\
        (forall ev, In ev pre -> writes_state ev = false) /\
        GetSequence acc' = uint64_add (SystemSequence s) 1 /\
        acc_address acc' = IbcEvmModuleETHAddr /\
        accounts (store_of r) !! IbcEvmModuleETHAddr = Some (GetSequence acc')) /\
  (forall ctx caller contract recipient amount b,
      let r := SendToEvm ctx caller contract recipient amount s in
      result_of r = Returned (b, None) ->
      SystemSequence (store_of r) = uint64_add (SystemSequence s) 1).
Proof.
  split.
  - intros ctx to value data. cbv zeta. intros Hok.
    pose proof (CallEvm_success_sequence _ _ _ _ _ Hok) as Hseq.
    split; [exact Hseq|]. split.
    + intros Hrange. rewrite Hseq. unfold uint64_add.
      apply Z.mod_small. unfold uint64_modulus in *. lia.
    + destruct (CallEvm_success_run _ _ _ _ _ Hok)
        as (config & chainIDEpoch & _ & _ & _ & Hrun).
      cbv zeta in Hrun. rewrite Hrun. unfold trace_of, store_of. cbn [fst snd].
      eexists _, _, _. split; [reflexivity|]. split; [|split; [|split]].
      * intros ev Hin. unfold callPrelude in Hin.
        destruct (accounts s !! IbcEvmModuleETHAddr);
          destruct (GasMeterLimit ctx =? InfiniteGasMeterLimit); cbn in Hin;
          repeat (destruct Hin as [<-|Hin]; [reflexivity|]); destruct Hin.
      * reflexivity.
      * reflexivity.
      * unfold putAccount. cbn. apply lookup_insert_eq.
  - intros ctx caller contract recipient amount b. cbv zeta. intros Hok.
    destruct (SendToEvm_success_run _ _ _ _ _ _ _ Hok)
      as (to & input & Hstore & _ & Hres).
    rewrite Hstore. apply (CallEvm_success_sequence _ _ _ _ _ Hres).
Qed.

(** *** More on [Handle] *)

(** X21. At or above the activation height, with the bridge enabled, a
    log that decodes to two strings and an integer of at most 255 bits
    (whatever follows them) is handed to [SendToWasm] with these values
    unchanged, and [Handle] returns what [SendToWasm] returns: its error,
    if any, and its store.  An integer of more bits makes [Handle] panic
    where the amount is built, before [SendToWasm], on the store as it
    was. *)
Theorem Handle_passes_on_SendToWasm (H : Z) (ctx : Context) (contract : Address)
        (data : Bytes) (s : Store) (wasmAddr recipient : string) (amount : Z)
        (more : list AbiValue) :
  H <= BlockHeight ctx ->
  VmbridgeEnable (wasmParams s) = true ->
  Unpack data
  = inl (AbiString wasmAddr :: AbiString recipient :: AbiBigInt amount :: more) ->
  (Z.abs amount < 2 ^ maxBitLen ->
   let sent := SendToWasm ctx contract wasmAddr recipient amount s in
   Handle H ctx contract data s
   = (Returned (fst sent), snd sent,
      [EvWasmGetParams; EvSendToWasm contract wasmAddr recipient amount])) /\
  (2 ^ maxBitLen <= Z.abs amount ->
   Handle H ctx contract data s = (Panicked, s, [EvWasmGetParams])).
Proof.
  intros Hle Hon Hdec.
  rewrite (Handle_open H ctx contract data s Hle Hon), Hdec.
  cbn [assert_string assert_bigInt lookup list_lookup]. split.
  - intros Hin. cbv zeta. rewrite (NewIntFromBigInt_in_range amount Hin).
    destruct (SendToWasm ctx contract wasmAddr recipient amount s) as [err s'].
    reflexivity.
  - intros Hout. rewrite (NewIntFromBigInt_out_of_bound amount Hout). reflexivity.
Qed.

(** X22. Past the gate, a log that decodes to anything else (fewer than
    three values, or a value of another type in one of the three places)
    makes [Handle] panic, after the read of the parameters and before any
    call of [SendToWasm]; the store is as it was. *)
Theorem Handle_panics_on_other_shapes (H : Z) (ctx : Context) (contract : Address)
        (data : Bytes) (s : Store) (unpacked : list AbiValue) :
  H < BlockHeight ctx ->
  VmbridgeEnable (wasmParams s) = true ->
  Unpack data = inl unpacked ->
  (forall wasmAddr recipient amount more,
      unpacked <> AbiString wasmAddr :: AbiString recipient :: AbiBigInt amount :: more) ->
  Handle H ctx contract data s = (Panicked, s, [EvWasmGetParams]).
Proof.
  intros Hlt Hon Hdec Hshape.
  rewrite (Handle_open H ctx contract data s (Z.lt_le_incl _ _ Hlt) Hon), Hdec.
  destruct unpacked as [|[w|i|b] [|[r|i'|b'] [|[x|a|b''] more]]]; try reflexivity.
  exfalso. apply (Hshape w r a more). reflexivity.
Qed.

(** X23. [Handle] writes to the chain state through [SendToWasm] only: a
    run without that call, and every run that panics, leaves the store as
    it was, and a run calls [SendToWasm] at most once, as its last
    step, with the emitting contract as the caller. *)
Theorem Handle_writes_only_through_SendToWasm (H : Z) (ctx : Context)
        (contract : Address) (data : Bytes) (s : Store) :
  let r := Handle H ctx contract data s in
  ((forall caller wasmAddr recipient amount,
       ~ In (EvSendToWasm caller wasmAddr recipient amount) (trace_of r)) ->
   store_of r = s) /\
  (result_of r = Panicked -> store_of r = s) /\
  (forall ev, In ev (trace_of r) -> writes_state ev = true ->
              trace_of r = [EvWasmGetParams; ev] /\
              exists wasmAddr recipient amount,
                ev = EvSendToWasm contract wasmAddr recipient amount).
Proof.
  cbv zeta.
  destruct (Z.lt_ge_cases (BlockHeight ctx) H) as [Hlt|Hle].
  { rewrite (Handle_not_higher H ctx contract data s Hlt).
    split; [reflexivity|]. split; [reflexivity|]. intros ev []. }
  destruct (VmbridgeEnable (wasmParams s)) eqn:Hon.
  2:{ rewrite (Handle_disabled H ctx contract data s Hle Hon).
      split; [reflexivity|]. split; [reflexivity|].
      intros ev [<-|[]]. discriminate. }
  rewrite (Handle_open H ctx contract data s Hle Hon).
  destruct (Unpack data) as [unpacked|err].
  2:{ split; [reflexivity|]. split; [reflexivity|].
      intros ev [<-|[<-|[]]]; discriminate. }
  destruct (assert_string unpacked 0) as [wasmAddr|];
    [destruct (assert_string unpacked 1) as [recipient|];
     [destruct (assert_bigInt unpacked 2) as [amountBig|];
      [destruct (NewIntFromBigInt amountBig) as [amount|]|]|]|];
    try (split; [reflexivity|]; split; [reflexivity|];
         intros ev [<-|[]]; discriminate).
  destruct (SendToWasm ctx contract wasmAddr recipient amount s) as [err s'].
  unfold store_of, trace_of, result_of. cbn [fst snd].
  split; [|split].
  - intros Hnever. exfalso.
    apply (Hnever contract wasmAddr recipient amount). right. left. reflexivity.
  - discriminate.
  - intros ev [<-|[<-|[]]]; [discriminate|]. intros _.
    split; [reflexivity|]. eexists _, _, _. reflexivity.
Qed.

(** *** More on [CallEvm] *)

Lemma callPrelude_no_transition (ctx : Context) (to : option Address) (value : Z)
      (data : Bytes) (s : Store) (ev : Event) :
  In ev (callPrelude ctx to value data s) ->
  (forall st, ev <> EvTransitionDb st) /\
  (forall to' value' data', ev = EvCallEvm to' value' data' ->
                            to' = to /\ value' = value /\ data' = data) /\
  (ev = EvEvmGetParams -> (GasMeterLimit ctx =? InfiniteGasMeterLimit) = true) /\
  (ev = EvNewAccountWithAddress IbcEvmModuleETHAddr ->
   accounts s !! IbcEvmModuleETHAddr = None).
Proof.
  unfold callPrelude.
  destruct (accounts s !! IbcEvmModuleETHAddr);
    destruct (GasMeterLimit ctx =? InfiniteGasMeterLimit); cbn;
    intros Hin;
    repeat (destruct Hin as [<-|Hin];
            [split; [|split; [|split]]; intros; try discriminate;
             try reflexivity;
             match goal with
             | Heq : EvCallEvm _ _ _ = EvCallEvm _ _ _ |- _ =>
                 injection Heq as <- <- <-; auto
             end|]);
    destruct Hin.
Qed.

(** X24. The state transition that [CallEvm] runs is sent by the system
    account at the sequence the store holds for it (0 when the account
    does not exist yet), at gas price 0, with the recipient, value and
    payload of the call, simulated exactly in a check; its gas limit is
    the limit of the context's gas meter, or the configured maximum per
    transaction when that meter is the infinite one. *)
Theorem CallEvm_transition_parameters (ctx : Context) (to : option Address)
        (value : Z) (data : Bytes) (s : Store) (st : StateTransition) :
  In (EvTransitionDb st) (trace_of (CallEvm ctx to value data s)) ->
  Sender st = IbcEvmModuleETHAddr /\
  AccountNonce st = SystemSequence s /\
  Price st = 0 /\
  Recipient st = to /\ Amount st = value /\ Payload st = data /\
  Simulate st = IsCheckTx ctx /\
  GasLimit st = (if GasMeterLimit ctx =? InfiniteGasMeterLimit
                 then MaxGasLimitPerTx (evmParams s)
                 else GasMeterLimit ctx).
Proof.
  destruct (chainConfig s) as [config|] eqn:Hcfg.
  2:{ rewrite CallEvm_no_config by exact Hcfg. cbn.
      intros [Hin|[Hin|[]]]; discriminate Hin. }
  destruct (ParseChainID (ChainID ctx)) as [chainIDEpoch|perr] eqn:Hid.
  2:{ rewrite (CallEvm_bad_chain_id _ _ _ _ _ _ _ Hcfg Hid). cbn.
      intros [Hin|[Hin|[]]]; discriminate Hin. }
  rewrite (CallEvm_transition _ _ _ _ _ _ _ Hcfg Hid). cbv zeta.
  assert (Hst : forall tail,
             (forall ev, In ev tail -> forall st', ev <> EvTransitionDb st') ->
             In (EvTransitionDb st)
                (callPrelude ctx to value data s
                 ++ EvTransitionDb (callTransition ctx to value data chainIDEpoch s)
                    :: tail)%list ->
             st = callTransition ctx to value data chainIDEpoch s).
  { intros tail Htail Hin. apply in_app_iff in Hin as [Hin|[Hin|Hin]].
    - destruct (callPrelude_no_transition _ _ _ _ _ _ Hin) as (Hno & _).
      exfalso. apply (Hno st). reflexivity.
    - injection Hin as <-. reflexivity.
    - exfalso. apply (Htail _ Hin st). reflexivity. }
  intros Hin.
  assert (Heq : st = callTransition ctx to value data chainIDEpoch s).
  { destruct (transitionErr _); unfold trace_of in Hin; cbn [snd] in Hin.
    - apply (Hst [] ); [intros ev []|exact Hin].
    - eapply Hst; [|exact Hin].
      intros ev [<-|[<-|[]]] st'; discriminate. }
  subst st. unfold callTransition, callGasLimit. cbn. repeat split; reflexivity.
Qed.

(** X25. The system account is created by the first call that succeeds:
    on a store without it, a call that returns no error leaves the
    account at sequence 1, and a call that returns an error leaves the
    store without the account. *)
Theorem CallEvm_creates_system_account (ctx : Context) (to : option Address)
        (value : Z) (data : Bytes) (s : Store) :
  accounts s !! IbcEvmModuleETHAddr = None ->
  let r := CallEvm ctx to value data s in
  (snd (result_of r) = None ->
   accounts (store_of r) !! IbcEvmModuleETHAddr = Some 1) /\
  (forall err, snd (result_of r) = Some err ->
               accounts (store_of r) !! IbcEvmModuleETHAddr = None).
Proof.
  intros Hnone. cbv zeta. split.
  - intros Hok.
    destruct (CallEvm_success_run _ _ _ _ _ Hok)
      as (config & chainIDEpoch & _ & _ & _ & Hrun).
    rewrite Hrun. unfold store_of, putAccount, callerAccount, SystemSequence.
    cbn. rewrite Hnone, lookup_insert_eq. reflexivity.
  - intros err Herr.
    destruct (CallEvm_error_run _ _ _ _ _ _ Herr) as (_ & Hstore & _).
    rewrite Hstore. exact Hnone.
Qed.

(** X26. Two calls that succeed one after the other advance the sequence
    of the system account by two in [uint64] arithmetic, and the second
    state transition runs at the sequence the first call left. *)
Theorem CallEvm_twice (ctx ctx' : Context) (to to' : option Address)
        (value value' : Z) (data data' : Bytes) (s : Store) :
  let r := CallEvm ctx to value data s in
  let r' := CallEvm ctx' to' value' data' (store_of r) in
  snd (result_of r) = None ->
  snd (result_of r') = None ->
  SystemSequence (store_of r') = (SystemSequence s + 2) mod uint64_modulus /\
  (forall st, In (EvTransitionDb st) (trace_of r') ->
              AccountNonce st = uint64_add (SystemSequence s) 1).
Proof.
  cbv zeta. intros Hok Hok'.
  pose proof (CallEvm_success_sequence _ _ _ _ _ Hok) as Hseq.
  pose proof (CallEvm_success_sequence _ _ _ _ _ Hok') as Hseq'.
  split.
  - rewrite Hseq', Hseq. unfold uint64_add.
    rewrite Z.add_mod_idemp_l by (unfold uint64_modulus; lia).
    f_equal. lia.
  - intros st Hin.
    destruct (CallEvm_transition_parameters _ _ _ _ _ _ Hin) as (_ & Hnonce & _).
    rewrite Hnonce. exact Hseq.
Qed.

(** *** More on [SendToEvm] *)

Lemma SendToEvm_run (ctx : Context) (caller contract recipient : string)
      (amount : Z) (s : Store) (contractAccAddr recipientAccAddr : Address)
      (input : Bytes) :
  IsETHAddress recipient = true ->
  IsETHAddress contract = true ->
  AccAddressFromBech32 contract = inl contractAccAddr ->
  AccAddressFromBech32 recipient = inl recipientAccAddr ->
  GetMintERC20Input caller (BytesToAddress recipientAccAddr) (BigInt amount)
    = inl input ->
  let call := CallEvm ctx (Some (BytesToAddress contractAccAddr)) 0 input s in
  SendToEvm ctx caller contract recipient amount s
  = (match snd (result_of call), snd (fst (result_of call)) with
     | Some e, _ => Returned (false, Some e)
     | None, None => Panicked
     | None, Some res => Returned (GetMintERC20Output (Ret res))
     end,
     store_of call, trace_of call).
Proof.
  intros Hr Hc Hca Hra Hin. cbv zeta. unfold SendToEvm.
  rewrite Hr, Hc. cbn [negb]. rewrite Hca, Hra, Hin. unfold bind.
  destruct (CallEvm ctx (Some (BytesToAddress contractAccAddr)) 0 input s)
    as [[[[er rd] err] s1] t1].
  unfold result_of, store_of, trace_of. cbn [fst snd].
  destruct err as [e|]; [|destruct rd as [res|]]; cbn; rewrite app_nil_r;
    reflexivity.
Qed.

(** X27. An error of [SendToEvm] need not mean that nothing happened:
    when the EVM call succeeds and its return data does not decode,
    [SendToEvm] returns the decoding error on a store in which the
    working state is committed and the sequence of the system account is
    advanced. *)
Theorem SendToEvm_error_after_commit (ctx : Context)
        (caller contract recipient : string) (amount : Z) (s : Store)
        (contractAccAddr recipientAccAddr : Address) (input : Bytes)
        (er : option ExecutionResult) (res : ResultData) (b : bool) (e : Error) :
  IsETHAddress recipient = true ->
  IsETHAddress contract = true ->
  AccAddressFromBech32 contract = inl contractAccAddr ->
  AccAddressFromBech32 recipient = inl recipientAccAddr ->
  GetMintERC20Input caller (BytesToAddress recipientAccAddr) (BigInt amount)
    = inl input ->
  result_of (CallEvm ctx (Some (BytesToAddress contractAccAddr)) 0 input s)
    = (er, Some res, None) ->
  GetMintERC20Output (Ret res) = (b, Some e) ->
  let r := SendToEvm ctx caller contract recipient amount s in
  result_of r = Returned (b, Some e) /\
  SystemSequence (store_of r) = uint64_add (SystemSequence s) 1 /\
  In (EvCommit false) (trace_of r).
Proof.
  intros Hr Hc Hca Hra Hin Hcall Hout. cbv zeta.
  pose proof (SendToEvm_run ctx caller contract recipient amount s _ _ _
                Hr Hc Hca Hra Hin) as Hsend.
  cbv zeta in Hsend. rewrite Hcall in Hsend. cbn [fst snd] in Hsend.
  rewrite Hout in Hsend. rewrite Hsend.
  unfold result_of at 1, store_of at 1, trace_of at 1. cbn [fst snd].
  split; [reflexivity|].
  assert (Hok : snd (result_of (CallEvm ctx (Some (BytesToAddress contractAccAddr))
                                        0 input s)) = None)
    by (rewrite Hcall; reflexivity).
  split; [apply (CallEvm_success_sequence _ _ _ _ _ Hok)|].
  destruct (CallEvm_success_run _ _ _ _ _ Hok)
    as (config & chainIDEpoch & _ & _ & _ & Hrun).
  rewrite Hrun. unfold trace_of. cbn [snd].
  apply in_app_iff. right. right. left. reflexivity.
Qed.

(** X28. Whatever [SendToEvm] does, the only call into the EVM it makes
    is one call of [CallEvm] with native value 0, to the address made of
    the parsed contract string, with the mint payload built from the
    caller, the parsed recipient and the amount. *)
Theorem SendToEvm_calls_contract_with_zero_value (ctx : Context)
        (caller contract recipient : string) (amount : Z) (s : Store)
        (to : option Address) (value : Z) (data : Bytes) :
  In (EvCallEvm to value data)
     (trace_of (SendToEvm ctx caller contract recipient amount s)) ->
  value = 0 /\
  exists contractAccAddr recipientAccAddr,
    AccAddressFromBech32 contract = inl contractAccAddr /\
    AccAddressFromBech32 recipient = inl recipientAccAddr /\
    to = Some (BytesToAddress contractAccAddr) /\
    GetMintERC20Input caller (BytesToAddress recipientAccAddr) (BigInt amount)
      = inl data /\
    IsETHAddress recipient = true /\ IsETHAddress contract = true.
Proof.
  destruct (IsETHAddress recipient) eqn:Hr.
  2:{ unfold SendToEvm. rewrite Hr. intros []. }
  destruct (IsETHAddress contract) eqn:Hc.
  2:{ unfold SendToEvm. rewrite Hr, Hc. intros []. }
  destruct (AccAddressFromBech32 contract) as [ca|e1] eqn:Hca.
  2:{ unfold SendToEvm. rewrite Hr, Hc, Hca. intros []. }
  destruct (AccAddressFromBech32 recipient) as [ra|e2] eqn:Hra.
  2:{ unfold SendToEvm. rewrite Hr, Hc, Hca, Hra. intros []. }
  destruct (GetMintERC20Input caller (BytesToAddress ra) (BigInt amount))
    as [input|e3] eqn:Hin.
  2:{ unfold SendToEvm. rewrite Hr, Hc, Hca, Hra, Hin. intros []. }
  rewrite (SendToEvm_run _ _ _ _ _ _ _ _ _ Hr Hc Hca Hra Hin). cbv zeta.
  unfold trace_of at 1. cbn [snd]. intros Hev.
  assert (Hsame : to = Some (BytesToAddress ca) /\ value = 0 /\ data = input).
  { revert Hev.
    destruct (chainConfig s) as [config|] eqn:Hcfg.
    2:{ rewrite CallEvm_no_config by exact Hcfg. cbn.
        intros [[= <- <- <-]|[Hev|[]]]; [auto|discriminate Hev]. }
    destruct (ParseChainID (ChainID ctx)) as [chainIDEpoch|perr] eqn:Hid.
    2:{ rewrite (CallEvm_bad_chain_id _ _ _ _ _ _ _ Hcfg Hid). cbn.
        intros [[= <- <- <-]|[Hev|[]]]; [auto|discriminate Hev]. }
    rewrite (CallEvm_transition _ _ _ _ _ _ _ Hcfg Hid). cbv zeta.
    destruct (transitionErr _); unfold trace_of; cbn [snd]; intros Hev;
      apply in_app_iff in Hev as [Hev|Hev];
      try (destruct (callPrelude_no_transition _ _ _ _ _ _ Hev) as (_ & Hcall & _);
           apply (Hcall to value data); reflexivity).
    - destruct Hev as [Hev|[]]; discriminate Hev.
    - destruct Hev as [Hev|[Hev|[Hev|[]]]]; discriminate Hev. }
  destruct Hsame as (-> & -> & ->). split; [reflexivity|].
  exists ca, ra. repeat (split; [reflexivity|]). split; [exact Hin|].
  split; reflexivity.
Qed.

End Keeper.

(** *** The scenarios, on the closed instance *)

Section Scenarios.
Import Reference.

Lemma log500_decodes :
  Unpack log500
  = inl [AbiString "ex1wasmcontract"; AbiString "ex1recipient"; AbiBigInt 500].
Proof. vm_compute. reflexivity. Qed.

Lemma truncated_log_fails :
  Unpack (take 100 log500) = inr (ErrCollaborator "abi: cannot unmarshal").
Proof. vm_compute. reflexivity. Qed.

Lemma Handle_sends_decoded_triple_witness :
  Handle 100 (ctxAt 100) evmContract log500 (storeWith true ∅)
  = (Returned None, storeWith true ∅,
     [EvWasmGetParams;
      EvSendToWasm evmContract "ex1wasmcontract" "ex1recipient" 500]) /\
  result_of (Handle 100 (ctxAt 100) evmContract log500 (storeWith true ∅))
  = Returned None.
Proof.
  destruct (Handle_sends_decoded_triple 100 (ctxAt 100) evmContract log500
              (storeWith true ∅) "ex1wasmcontract" "ex1recipient")
    as [Hrun Hok].
  - reflexivity.
  - reflexivity.
  - vm_compute. reflexivity.
  - split; [exact Hrun|]. apply Hok. reflexivity.
Defined.

(** C2, as stated, fails: height 100 is not strictly greater than the
    activation height 100, and yet, with the bridge enabled, [Handle]
    returns no NotSupportedError there: it calls [SendToWasm] and returns
    nil. *)
Lemma Handle_at_activation_height_proceeds :
  ~ (100 < BlockHeight (ctxAt 100)) /\
  VmbridgeEnable (wasmParams (storeWith true ∅)) = true /\
  result_of (Handle 100 (ctxAt 100) evmContract log500 (storeWith true ∅))
  = Returned None /\
  (forall e,
      result_of (Handle 100 (ctxAt 100) evmContract log500 (storeWith true ∅))
      <> Returned (Some e)) /\
  In (EvSendToWasm evmContract "ex1wasmcontract" "ex1recipient" 500)
     (trace_of (Handle 100 (ctxAt 100) evmContract log500 (storeWith true ∅))).
Proof.
  split; [cbn; lia|]. split; [reflexivity|].
  split; [vm_compute; reflexivity|]. split.
  - intros e. vm_compute. discriminate.
  - vm_compute. right. left. reflexivity.
Qed.

Lemma Handle_gate_witness :
  (exists e, result_of (Handle 100 (ctxAt 99) evmContract log500 (storeWith true ∅))
             = Returned (Some e) /\ is_NotSupportedError e = true) /\
  trace_of (Handle 100 (ctxAt 99) evmContract log500 (storeWith true ∅)) = [] /\
  (exists e, result_of (Handle 100 (ctxAt 100) evmContract log500 (storeWith false ∅))
             = Returned (Some e) /\ is_NotSupportedError e = true) /\
  store_of (Handle 100 (ctxAt 100) evmContract log500 (storeWith false ∅))
  = storeWith false ∅.
Proof.
  destruct (Handle_gate 100 (ctxAt 99) evmContract log500 (storeWith true ∅))
    as [Hheight _].
  destruct (Handle_gate 100 (ctxAt 100) evmContract log500 (storeWith false ∅))
    as [Hflag _].
  destruct Hheight as (He & _ & _ & Htrace); [left; cbn; lia|].
  destruct Hflag as (Hf & Hs & _); [right; reflexivity|].
  split; [exact He|]. split; [apply Htrace; cbn; lia|].
  split; [exact Hf|exact Hs].
Defined.

(** C3, as stated, fails: below the activation height a log whose payload
    does not decode is answered with the not-supported error, not with
    nil, and nothing is logged. *)
Lemma Handle_decode_failure_below_activation :
  Unpack (take 100 log500) = inr (ErrCollaborator "abi: cannot unmarshal") /\
  Handle 100 (ctxAt 50) evmContract (take 100 log500) (storeWith true ∅)
  = (Returned (Some (ErrUnknownRequestWrap "vmbridger not supprt at height 50")),
     storeWith true ∅, []) /\
  result_of (Handle 100 (ctxAt 50) evmContract (take 100 log500) (storeWith true ∅))
  <> Returned None.
Proof.
  split; [exact truncated_log_fails|].
  split; [vm_compute; reflexivity|]. vm_compute. discriminate.
Qed.

Lemma Handle_swallows_decode_failure_witness :
  Handle 100 (ctxAt 101) evmContract (take 100 log500) (storeWith true ∅)
  = (Returned None, storeWith true ∅,
     [EvWasmGetParams;
      EvLogError "log signature matches but failed to decode"
                 (ErrCollaborator "abi: cannot unmarshal")]).
Proof.
  apply (Handle_swallows_decode_failure 100 (ctxAt 101) evmContract
           (take 100 log500) (storeWith true ∅)).
  - cbn. lia.
  - reflexivity.
  - vm_compute. reflexivity.
Defined.

Lemma SendToEvm_rejects_malformed_address_witness :
  (exists e,
      result_of (SendToEvm (ctxAt 101) "ex1caller" "0xcontract"
                           "not-an-eth-address" 500 (storeWith true ∅))
      = Returned (false, Some e) /\ is_ValidationError e = true) /\
  store_of (SendToEvm (ctxAt 101) "ex1caller" "0xcontract"
                      "not-an-eth-address" 500 (storeWith true ∅))
  = storeWith true ∅ /\
  trace_of (SendToEvm (ctxAt 101) "ex1caller" "0xcontract"
                      "not-an-eth-address" 500 (storeWith true ∅)) = [].
Proof.
  destruct (SendToEvm_rejects_malformed_address (ctxAt 101) "ex1caller"
              "0xcontract" "not-an-eth-address" 500 (storeWith true ∅))
    as (Hres & Hstore & Htrace & _).
  - left. reflexivity.
  - split; [exact Hres|]. split; [exact Hstore|exact Htrace].
Defined.

Lemma CallEvm_failure_leaves_state_witness :
  result_of (CallEvm (ctxAt 101) (Some evmContract) 0 [1%N] storeNoConfig)
  = (None, None, Some ErrChainConfigNotFound) /\
  store_of (CallEvm (ctxAt 101) (Some evmContract) 0 [] (storeWith true ∅))
  = storeWith true ∅ /\
  SystemSequence (store_of (CallEvm (ctxAt 101) (Some evmContract) 0 []
                                    (storeWith true ∅)))
  = SystemSequence (storeWith true ∅).
Proof.
  destruct (CallEvm_failure_leaves_state (ctxAt 101) (Some evmContract) 0 [1%N]
              storeNoConfig) as (Hcfg & _).
  destruct (CallEvm_failure_leaves_state (ctxAt 101) (Some evmContract) 0 []
              (storeWith true ∅)) as (_ & _ & _ & Hfail).
  destruct (Hfail (ErrCollaborator "execution reverted")) as (Hstore & Hseq & _).
  - vm_compute. reflexivity.
  - split; [apply Hcfg; reflexivity|]. split; [exact Hstore|exact Hseq].
Defined.

(** C6, as stated, fails at the top of [uint64]: a call that succeeds on a
    system account at sequence [2^64 - 1] leaves the sequence at 0. *)
Lemma CallEvm_sequence_wraps :
  snd (result_of (CallEvm (ctxAt 101) (Some evmContract) 0 [1%N] storeTop)) = None /\
  SystemSequence storeTop = 18446744073709551615 /\
  SystemSequence (store_of (CallEvm (ctxAt 101) (Some evmContract) 0 [1%N] storeTop))
  = 0 /\
  SystemSequence (store_of (CallEvm (ctxAt 101) (Some evmContract) 0 [1%N] storeTop))
  <> SystemSequence storeTop + 1.
Proof.
  split; [vm_compute; reflexivity|].
  split; [vm_compute; reflexivity|].
  split; [vm_compute; reflexivity|]. vm_compute. discriminate.
Qed.

Lemma CallEvm_success_advances_sequence_witness :
  SystemSequence
    (store_of (CallEvm (ctxAt 101) (Some evmContract) 0 [1%N]
                       (storeWith true (systemAt 7)))) = 7 + 1 /\
  SystemSequence
    (store_of (SendToEvm (ctxAt 101) "ex1caller" "0xcontract" "0xrecipient" 500
                         (storeWith true (systemAt 7)))) = uint64_add 7 1.
Proof.
  pose proof (CallEvm_success_advances_sequence (storeWith true (systemAt 7)))
    as [Hcall Hsend].
  split.
  - destruct (Hcall (ctxAt 101) (Some evmContract) 0 [1%N]) as (_ & Hplus & _).
    + vm_compute. reflexivity.
    + apply Hplus.
      replace (SystemSequence (storeWith true (systemAt 7))) with 7
        by (vm_compute; reflexivity).
      unfold uint64_modulus. lia.
  - apply (Hsend (ctxAt 101) "ex1caller" "0xcontract" "0xrecipient" 500 true).
    vm_compute. reflexivity.
Defined.

Lemma Handle_passes_on_SendToWasm_witness :
  Handle 100 (ctxAt 100) evmContract logNoRecipient (storeWith true ∅)
  = (Returned (Some (ErrCollaborator "empty address")), storeWith true ∅,
     [EvWasmGetParams; EvSendToWasm evmContract "ex1wasmcontract" "" 7]) /\
  Handle 100 (ctxAt 100) evmContract logOutOfBound (storeWith true ∅)
  = (Panicked, storeWith true ∅, [EvWasmGetParams]).
Proof.
  assert (Hle : 100 <= BlockHeight (ctxAt 100)) by (cbn; lia).
  assert (Hdec : Unpack logNoRecipient
                 = inl [AbiString "ex1wasmcontract"; AbiString ""; AbiBigInt 7])
    by (vm_compute; reflexivity).
  assert (Hdec' : Unpack logOutOfBound
                  = inl [AbiString "ex1wasmcontract"; AbiString "ex1recipient";
                         AbiBigInt (2 ^ 255)])
    by (vm_compute; reflexivity).
  split.
  - refine (proj1 (Handle_passes_on_SendToWasm 100 (ctxAt 100) evmContract
                     logNoRecipient (storeWith true ∅) "ex1wasmcontract" "" 7 []
                     Hle eq_refl Hdec) _).
    unfold maxBitLen. cbn. lia.
  - refine (proj2 (Handle_passes_on_SendToWasm 100 (ctxAt 100) evmContract
                     logOutOfBound (storeWith true ∅) "ex1wasmcontract"
                     "ex1recipient" (2 ^ 255) [] Hle eq_refl Hdec') _).
    unfold maxBitLen. cbn. lia.
Defined.

Lemma Handle_panics_on_other_shapes_witness :
  Handle (collab := faultyCollab) 100 (ctxAt 101) evmContract log500
         (storeWith true ∅)
  = (Panicked, storeWith true ∅, [EvWasmGetParams]).
Proof.
  apply (Handle_panics_on_other_shapes (collab := faultyCollab) 100 (ctxAt 101)
           evmContract log500 (storeWith true ∅) [AbiString "ex1wasmcontract"]).
  - cbn. lia.
  - reflexivity.
  - reflexivity.
  - intros wasmAddr recipient amount more. discriminate.
Defined.

Lemma Handle_writes_only_through_SendToWasm_witness :
  store_of (Handle 100 (ctxAt 101) evmContract (take 100 log500) (storeWith true ∅))
  = storeWith true ∅.
Proof.
  apply (proj1 (Handle_writes_only_through_SendToWasm 100 (ctxAt 101) evmContract
                  (take 100 log500) (storeWith true ∅))).
  intros caller wasmAddr recipient amount. vm_compute.
  intros [Hev|[Hev|[]]]; discriminate Hev.
Defined.

Lemma CallEvm_transition_parameters_witness :
  GasLimit (callTransition (ctxAt 101) (Some evmContract) 0 [1%N] 10
                           (storeWith true (systemAt 7))) = 30000000 /\
  GasLimit (callTransition (ctxWithGas 101 21000) (Some evmContract) 0 [1%N] 10
                           (storeWith true (systemAt 7))) = 21000 /\
  AccountNonce (callTransition (ctxAt 101) (Some evmContract) 0 [1%N] 10
                               (storeWith true (systemAt 7))) = 7.
Proof.
  destruct (CallEvm_transition_parameters (ctxAt 101) (Some evmContract) 0 [1%N]
              (storeWith true (systemAt 7))
              (callTransition (ctxAt 101) (Some evmContract) 0 [1%N] 10
                              (storeWith true (systemAt 7))))
    as (_ & Hnonce & _ & _ & _ & _ & _ & Hgas).
  { vm_compute. do 4 right. left. reflexivity. }
  destruct (CallEvm_transition_parameters (ctxWithGas 101 21000) (Some evmContract)
              0 [1%N] (storeWith true (systemAt 7))
              (callTransition (ctxWithGas 101 21000) (Some evmContract) 0 [1%N] 10
                              (storeWith true (systemAt 7))))
    as (_ & _ & _ & _ & _ & _ & _ & Hgas').
  { vm_compute. do 3 right. left. reflexivity. }
  split; [exact Hgas|]. split; [exact Hgas'|].
  rewrite Hnonce. vm_compute. reflexivity.
Defined.

Lemma CallEvm_creates_system_account_witness :
  accounts (store_of (CallEvm (ctxAt 101) (Some evmContract) 0 [1%N]
                              (storeWith true ∅))) !! IbcEvmModuleETHAddr
  = Some 1 /\
  accounts (store_of (CallEvm (ctxAt 101) (Some evmContract) 0 []
                              (storeWith true ∅))) !! IbcEvmModuleETHAddr
  = None.
Proof.
  destruct (CallEvm_creates_system_account (ctxAt 101) (Some evmContract) 0 [1%N]
              (storeWith true ∅)) as (Hok & _); [reflexivity|].
  destruct (CallEvm_creates_system_account (ctxAt 101) (Some evmContract) 0 []
              (storeWith true ∅)) as (_ & Hfail); [reflexivity|].
  split.
  - apply Hok. vm_compute. reflexivity.
  - apply (Hfail (ErrCollaborator "execution reverted")). vm_compute. reflexivity.
Defined.

Lemma CallEvm_twice_witness :
  SystemSequence
    (store_of (CallEvm (ctxAt 102) (Some evmContract) 0 [2%N]
                 (store_of (CallEvm (ctxAt 101) (Some evmContract) 0 [1%N]
                                    (storeWith true (systemAt 7))))))
  = (SystemSequence (storeWith true (systemAt 7)) + 2) mod uint64_modulus.
Proof.
  apply (CallEvm_twice (ctxAt 101) (ctxAt 102) (Some evmContract) (Some evmContract)
           0 0 [1%N] [2%N] (storeWith true (systemAt 7))).
  - vm_compute. reflexivity.
  - vm_compute. reflexivity.
Defined.

Lemma SendToEvm_error_after_commit_witness :
  result_of (SendToEvm (collab := faultyCollab) (ctxAt 101) "ex1caller"
                       "0xcontract" "0xrecipient" 5 (storeWith true (systemAt 7)))
  = Returned (false, Some (ErrCollaborator "call failed")) /\
  SystemSequence (collab := faultyCollab)
    (store_of (SendToEvm (collab := faultyCollab) (ctxAt 101) "ex1caller"
                         "0xcontract" "0xrecipient" 5 (storeWith true (systemAt 7))))
  = uint64_add (SystemSequence (collab := faultyCollab)
                  (storeWith true (systemAt 7))) 1.
Proof.
  destruct (SendToEvm_error_after_commit (collab := faultyCollab) (ctxAt 101)
              "ex1caller" "0xcontract" "0xrecipient" 5 (storeWith true (systemAt 7))
              (bytes_of_string "contract") (bytes_of_string "recipient")
              (bytes_of_string "ex1caller"
               ++ BytesToAddress (bytes_of_string "recipient") ++ word 5)%list
              (Some 30000000) [] false (ErrCollaborator "call failed"))
    as (Hres & Hseq & _); try reflexivity.
  split; [exact Hres|exact Hseq].
Defined.

Lemma SendToEvm_calls_contract_with_zero_value_witness :
  exists contractAccAddr recipientAccAddr,
    AccAddressFromBech32 "0xcontract" = inl contractAccAddr /\
    AccAddressFromBech32 "0xrecipient" = inl recipientAccAddr /\
    Some (BytesToAddress (bytes_of_string "contract"))
    = Some (BytesToAddress contractAccAddr).
Proof.
  destruct (SendToEvm_calls_contract_with_zero_value (ctxAt 101) "ex1caller"
              "0xcontract" "0xrecipient" 5 (storeWith true ∅)
              (Some (BytesToAddress (bytes_of_string "contract"))) 0
              (bytes_of_string "ex1caller"
               ++ BytesToAddress (bytes_of_string "recipient") ++ word 5)%list)
    as (_ & ca & ra & Hca & Hra & Hto & _).
  - vm_compute. left. reflexivity.
  - exists ca, ra. split; [exact Hca|]. split; [exact Hra|exact Hto].
Defined.

End Scenarios.
End BridgeFacts.
